(** * Indian Recipe Generator (app.py): a shallow embedding and its properties

    The application is one Python class, [IndianRecipeSystem], driven by a
    Streamlit script.  The embedding follows the file top to bottom:

    - [PyStr]: the few [str] methods the script uses ([strip], [split],
      [replace], [join], f-string concatenation), over lists of code points;
    - [Clock]: [datetime.now().strftime("%Y-%m-%d %H:%M:%S")];
    - [Store]: the [saved_recipes] table of [indian_recipes.db], a rowid
      table with an AUTOINCREMENT primary key, and the five SQL statements
      the script executes on it;
    - [App]: the methods of [IndianRecipeSystem], written in a small
      state-and-exception monad over the database handle, the page being
      rendered and the widgets registered during the script run;
    - [Observe] and [Scenario]: the vocabulary of the properties and the
      concrete runs they are tried on. *)

From Stdlib Require Import ZArith NArith String Ascii DecimalString.
From Stdlib Require Import DecimalPos DecimalZ.
From stdpp Require Import gmap list sorting.

Local Open Scope N_scope.

(** ** Python strings *)

Module PyStr.

(** A Python [str] is a sequence of Unicode code points. *)
Definition char := N.
Definition pystr := list char.

(** ASCII literals of the script are written [py "..."]. *)
Definition py (s : string) : pystr := N_of_ascii <$> list_ascii_of_string s.

Definition comma : char := 44.
Definition hash : char := 35.
Definition newline : char := 10.

(** [str.isspace] on one code point: the characters [str.strip()] removes
    when called without argument. *)
Definition is_space (c : char) : bool :=
  ((9 <=? c) && (c <=? 13)) || ((28 <=? c) && (c <=? 32))
  || (c =? 133) || (c =? 160) || (c =? 5760)
  || ((8192 <=? c) && (c <=? 8202))
  || (c =? 8232) || (c =? 8233) || (c =? 8239) || (c =? 8287) || (c =? 12288).

(** [s.lstrip()] *)
Fixpoint lstrip (s : pystr) : pystr :=
  match s with
  | [] => []
  | c :: s' => if is_space c then lstrip s' else s
  end.

(** [s.rstrip()] *)
Fixpoint rstrip (s : pystr) : pystr :=
  match s with
  | [] => []
  | c :: s' =>
      match rstrip s' with
      | [] => if is_space c then [] else [c]
      | r => c :: r
      end
  end.

(** [s.strip()] *)
Definition strip (s : pystr) : pystr := rstrip (lstrip s).

(** [s.split(sep)] for a one-character separator: never the empty list,
    empty fields are kept. *)
Fixpoint split (sep : char) (s : pystr) : list pystr :=
  match s with
  | [] => [[]]
  | c :: s' =>
      if c =? sep then [] :: split sep s'
      else match split sep s' with
           | [] => [[c]]
           | w :: ws => (c :: w) :: ws
           end
  end.

(** [s.replace(c, '')] for a one-character [c]: every occurrence goes. *)
Definition remove_char (c : char) (s : pystr) : pystr :=
  filter (fun x => x ≠ c) s.

(** [sep.join(items)] *)
Fixpoint join (sep : pystr) (items : list pystr) : pystr :=
  match items with
  | [] => []
  | [x] => x
  | x :: rest => x ++ sep ++ join sep rest
  end.

(** [str(n)] for a non-negative integer *)
Definition str_of_N (n : N) : pystr :=
  py (DecimalString.NilZero.string_of_uint (N.to_uint n)).

(** [str(z)] for an integer *)
Definition str_of_Z (z : Z) : pystr :=
  py (DecimalString.NilZero.string_of_int (Z.to_int z)).

(** How an f-string prints a string or [None]. *)
Definition format_opt (o : option pystr) : pystr :=
  match o with
  | Some s => s
  | None => py "None"
  end.

(** Comparison of two strings code point by code point; this is also how
    SQLite orders TEXT values under its default BINARY collation (the order
    of UTF-8 byte strings is the order of their code point sequences). *)
Fixpoint compare (a b : pystr) : comparison :=
  match a, b with
  | [], [] => Eq
  | [], _ :: _ => Lt
  | _ :: _, [] => Gt
  | x :: a', y :: b' =>
      match N.compare x y with
      | Eq => compare a' b'
      | c => c
      end
  end.

Definition le (a b : pystr) : Prop := compare a b ≠ Gt.
Definition lt (a b : pystr) : Prop := compare a b = Lt.

End PyStr.

Import PyStr.

(** ** The clock: [datetime.now().strftime("%Y-%m-%d %H:%M:%S")] *)

Module Clock.

(** A naive local [datetime], as [datetime.now()] returns it (the
    microseconds are not printed by the format and are left out). *)
Record datetime := {
  year : N; month : N; day : N;
  hour : N; minute : N; second : N
}.

Definition digit (d : N) : char := 48 + d.

(** [%m], [%d], [%H], [%M], [%S]: two digits, zero-padded. *)
Definition pad2 (n : N) : pystr := [digit (n / 10); digit (n mod 10)].

(** [%Y]: the four digits of a year between 1000 and 9999. *)
Definition pad4 (n : N) : pystr :=
  [digit (n / 1000); digit (n / 100 mod 10); digit (n / 10 mod 10); digit (n mod 10)].

Definition strftime (d : datetime) : pystr :=
  pad4 (year d) ++ py "-" ++ pad2 (month d) ++ py "-" ++ pad2 (day d) ++ py " "
  ++ pad2 (hour d) ++ py ":" ++ pad2 (minute d) ++ py ":" ++ pad2 (second d).

(** The readings a wall clock shows (with the years that print as four
    digits). *)
Definition valid (d : datetime) : bool :=
  (1000 <=? year d) && (year d <=? 9999)
  && (1 <=? month d) && (month d <=? 12)
  && (1 <=? day d) && (day d <=? 31)
  && (hour d <=? 23) && (minute d <=? 59) && (second d <=? 59).

Definition then_compare (c : comparison) (k : comparison) : comparison :=
  match c with Eq => k | _ => c end.

(** Earlier / same / later, field by field. *)
Definition chrono (a b : datetime) : comparison :=
  then_compare (year a ?= year b)
  (then_compare (month a ?= month b)
  (then_compare (day a ?= day b)
  (then_compare (hour a ?= hour b)
  (then_compare (minute a ?= minute b) (second a ?= second b))))).

End Clock.

(** ** The store: table [saved_recipes] of [indian_recipes.db] *)

Module Store.

(** One row, without its [id]: the seven columns the INSERT names.  The
    columns declared [TEXT NOT NULL] hold a string, the two others a string
    or NULL ([None] in Python). *)
Record recipe := {
  recipe_name : pystr;
  recipe_name_telugu : option pystr;
  region : pystr;
  ingredients : pystr;
  instructions : pystr;
  video_link : option pystr;
  created_date : pystr
}.

(** [id INTEGER PRIMARY KEY AUTOINCREMENT] makes [id] the rowid of the
    table: the rows are a finite map from rowid to row.  AUTOINCREMENT adds
    the table's entry in [sqlite_sequence], the largest rowid ever
    assigned (0 before the first INSERT). *)
Record saved_recipes := {
  rows : gmap Z recipe;
  sqlite_sequence : Z
}.

Definition MAX_ROWID : Z := 9223372036854775807.

Definition empty_table : saved_recipes := {| rows := ∅; sqlite_sequence := 0 |}.

(** [CREATE TABLE IF NOT EXISTS saved_recipes (...)]: the database file
    either has the table already ([Some]) or not. *)
Definition create_recipes_table (db : option saved_recipes) : saved_recipes :=
  match db with
  | Some t => t
  | None => empty_table
  end.

Definition max_of (ks : list Z) : option Z :=
  foldr (fun k acc => Some (match acc with None => k | Some a => Z.max k a end)) None ks.

(** The rowid of the last row of the table's B-tree. *)
Definition largest_rowid (t : saved_recipes) : option Z :=
  max_of (map_to_list (rows t)).*1.

(** [INSERT INTO saved_recipes (recipe_name, ..., created_date) VALUES
    (?, ?, ?, ?, ?, ?, ?)]: no [id] is given, so SQLite picks one more than
    the larger of the last rowid of the table and the recorded sequence,
    and refuses the INSERT (SQLITE_FULL, [None] here) once the largest
    rowid has been used.  Returns the new rowid ([cursor.lastrowid]). *)
Definition insert (r : recipe) (t : saved_recipes) : option (Z * saved_recipes) :=
  let v := match largest_rowid t with
           | None => 1
           | Some k => k + 1
           end%Z in
  if bool_decide (sqlite_sequence t = MAX_ROWID ∨ MAX_ROWID < v)%Z then None
  else
    let id := Z.max v (sqlite_sequence t + 1) in
    Some (id, {| rows := <[id := r]> (rows t); sqlite_sequence := id |}).

(** [DELETE FROM saved_recipes WHERE id = ?] *)
Definition delete (id : Z) (t : saved_recipes) : saved_recipes :=
  {| rows := base.delete id (rows t); sqlite_sequence := sqlite_sequence t |}.

(** The whole row with a given [id], if any. *)
Definition get (id : Z) (t : saved_recipes) : option recipe := rows t !! id.

(** [SELECT recipe_name, recipe_name_telugu, instructions, video_link
    FROM saved_recipes WHERE id = ?], then [fetchone()]. *)
Definition select_details (id : Z) (t : saved_recipes)
  : option (pystr * option pystr * pystr * option pystr) :=
  (fun r => (recipe_name r, recipe_name_telugu r, instructions r, video_link r))
    <$> get id t.

(** [ORDER BY created_date DESC]: a row comes before another when its
    date is not smaller, as strings. *)
Definition newer_first (x y : Z * recipe) : Prop :=
  PyStr.le (created_date y.2) (created_date x.2).

#[export] Instance newer_first_dec x y : Decision (newer_first x y).
Proof. unfold newer_first, PyStr.le. apply _. Defined.

(** The columns of the list query. *)
Record summary := {
  s_id : Z;
  s_recipe_name : pystr;
  s_recipe_name_telugu : option pystr;
  s_region : pystr;
  s_ingredients : pystr;
  s_created_date : pystr
}.

Definition summary_of (x : Z * recipe) : summary :=
  {| s_id := x.1;
     s_recipe_name := recipe_name x.2;
     s_recipe_name_telugu := recipe_name_telugu x.2;
     s_region := region x.2;
     s_ingredients := ingredients x.2;
     s_created_date := created_date x.2 |}.

(** [SELECT id, recipe_name, recipe_name_telugu, region, ingredients,
    created_date FROM saved_recipes ORDER BY created_date DESC], then
    [fetchall()]: every row, no LIMIT.  SQL leaves the order of rows with
    equal dates open; the sort used here is one admissible choice. *)
Definition select_all (t : saved_recipes) : list summary :=
  summary_of <$> merge_sort newer_first (map_to_list (rows t)).

(** [SELECT COUNT( * ) FROM saved_recipes] *)
Definition count (t : saved_recipes) : nat := size (rows t).

End Store.

(** ** The application: class [IndianRecipeSystem] *)

Module App.

Import Clock Store.

(** *** Exceptions *)

(** The exception classes that can reach the script; every one of them
    derives from [Exception].  [HttpError] is googleapiclient's (an HTTP
    response with an error status); [ServerNotFoundError] and
    [TimeoutError] are raised below it, by the transport. *)
Inductive exn_class :=
| HttpError | ServerNotFoundError | TimeoutError
| UnidentifiedImageError | ValueError | GoogleAPIError
| IndexError | KeyError | OperationalError
| DuplicateWidgetID.

#[export] Instance exn_class_eq_dec : EqDecision exn_class.
Proof. solve_decision. Defined.

(** An exception object: its class and [str(e)]. *)
Record exn := { exn_type : exn_class; exn_str : pystr }.

(** What can leave a call instead of a value: an exception, or Streamlit's
    [RerunException], the control signal of [st.rerun()], which is not an
    [Exception]. *)
Inductive raised :=
| Exc (e : exn)
| RerunException.

Inductive result (E A : Type) :=
| Ok (a : A)
| Raise (e : E).
Arguments Ok {E A} a.
Arguments Raise {E A} e.

(** *** The page, the widgets and the outside world *)

Definition bytes := list Byte.byte.

(** The parameters of [youtube.search().list(...)]. *)
Record search_request := {
  part : pystr; q : pystr; type_ : pystr; maxResults : N;
  relevanceLanguage : pystr; regionCode : pystr
}.

(** One element of [response['items']]; [videoId] is [item['id']['videoId']],
    present because the request asks for [type="video"]. *)
Record search_item := { videoId : pystr }.

(** What a script run leaves behind, in order: the elements drawn on the
    page and the requests sent to the outside. *)
Inductive event :=
| st_title (s : pystr)
| st_subheader (s : pystr)
| st_image (data : bytes) (caption : pystr)
| st_spinner (s : pystr)
| st_success (s : pystr)
| st_write (s : pystr)
| st_warning (s : pystr)
| st_error (s : pystr)
| st_info (s : pystr)
| st_markdown (s : pystr)
| st_video (url : pystr)
| st_balloons
| st_divider
| vision_request (prompt : pystr) (mime_type : pystr) (data : bytes)
| model_request (prompt : pystr)
| youtube_request (r : search_request)
| sql_commit.

Inductive widget_type := file_uploader | selectbox | slider | button.

#[export] Instance widget_type_eq_dec : EqDecision widget_type.
Proof. solve_decision. Defined.

(** What identifies a widget to Streamlit: its type and parameters (here
    the label), and the [key] argument when one is given. *)
Record widget := { w_type : widget_type; w_label : pystr; w_key : option pystr }.

#[export] Instance widget_eq_dec : EqDecision widget.
Proof. solve_decision. Defined.

(** The services the script talks to.  Each answer may depend on
    everything that happened before the request. *)
Record services := {
  image_open : bytes -> result exn unit;
  vision_generate_content : list event -> pystr -> bytes -> result exn pystr;
  model_generate_content : list event -> pystr -> result exn pystr;
  youtube_execute : list event -> search_request -> result exn (list search_item);
  datetime_now : list event -> datetime
}.

(** What the user did before this script run. *)
Record inputs := {
  uploaded_file : option bytes;
  selected : pystr -> pystr;
  slid : pystr -> N;
  clicked : widget -> bool
}.

(** The state a script run works on: the database behind [self.conn], the
    page so far, and the widgets registered so far in this run. *)
Record world := {
  conn : saved_recipes;
  page : list event;
  widgets : list widget
}.

(** *** The monad *)

Definition app (A : Type) : Type := world -> result raised A * world.

Definition ret {A} (a : A) : app A := fun w => (Ok a, w).

Definition bind {A B} (c : app A) (k : A -> app B) : app B :=
  fun w =>
    match c w with
    | (Ok a, w') => k a w'
    | (Raise e, w') => (Raise e, w')
    end.

#[export] Instance app_ret : MRet app := @ret.
#[export] Instance app_bind : MBind app := fun A B k c => bind c k.

Definition raise {A} (e : raised) : app A := fun w => (Raise e, w).

(** [pass], and the missing [else] of an [if]. *)
Definition skip : app unit := ret tt.

(** [try: body / except C as e: handler e], where [handles] tells the
    exceptions of class [C]. *)
Definition try_except {A} (handles : exn -> bool) (body : app A) (handler : exn -> app A)
  : app A :=
  fun w =>
    match body w with
    | (Raise (Exc e), w') =>
        if handles e then handler e w' else (Raise (Exc e), w')
    | r => r
    end.

Definition except_Exception (e : exn) : bool := true.
Definition except_HttpError (e : exn) : bool := bool_decide (exn_type e = HttpError).

Definition emit (e : event) : app unit :=
  fun w => (Ok tt, {| conn := conn w; page := page w ++ [e]; widgets := widgets w |}).

Definition lift {A} (r : result exn A) : app A :=
  match r with
  | Ok a => ret a
  | Raise e => raise (Exc e)
  end.

(** A request to a service: the request is recorded, then the service
    answers from what came before it. *)
Definition request {A} (e : event) (answer : list event -> result exn A) : app A :=
  fun w => bind (emit e) (fun _ => lift (answer (page w))) w.

Fixpoint for_each {A} (l : list A) (body : A -> app unit) : app unit :=
  match l with
  | [] => ret tt
  | x :: l' => bind (body x) (fun _ => for_each l' body)
  end.

(** Streamlit gives every widget an identity computed from its type and
    its arguments (label, key) and records the identities created during a
    script run.  Creating a second widget with an identity already recorded
    in the run, or with a [key] already in use, raises [DuplicateWidgetID];
    this is why the buttons of the saved rows carry a [key].  (The message
    of the exception is shortened to the label.) *)
Definition duplicate (x : widget) (ws : list widget) : bool :=
  bool_decide (x ∈ ws)
  || match w_key x with
     | Some k => bool_decide (Some k ∈ w_key <$> ws)
     | None => false
     end.

Definition register (x : widget) : app unit :=
  fun w =>
    if duplicate x (widgets w)
    then (Raise (Exc {| exn_type := DuplicateWidgetID; exn_str := w_label x |}), w)
    else (Ok tt, {| conn := conn w; page := page w; widgets := widgets w ++ [x] |}).

(** Truth value of a list, of a string and of an optional string. *)
Definition truthy_list {A} (l : list A) : bool :=
  match l with [] => false | _ => true end.

Definition truthy (o : option pystr) : bool :=
  match o with Some (_ :: _) => true | _ => false end.

(** *** The methods *)

Section methods.

Variable svc : services.
Variable inp : inputs.

Definition st_file_uploader (label : pystr) : app (option bytes) :=
  register {| w_type := file_uploader; w_label := label; w_key := None |};;
  mret (uploaded_file inp).

Definition st_selectbox (label : pystr) (options : list pystr) : app pystr :=
  register {| w_type := selectbox; w_label := label; w_key := None |};;
  mret (selected inp label).

Definition st_slider (label : pystr) : app N :=
  register {| w_type := slider; w_label := label; w_key := None |};;
  mret (slid inp label).

(** [st.button(label, key=key)]: true in the run that follows a click. *)
Definition st_button (label : pystr) (key : option pystr) : app bool :=
  let x := {| w_type := button; w_label := label; w_key := key |} in
  register x;;
  mret (clicked inp x).

(** A block of text written over several source lines. *)
Definition text_block (ls : list string) : pystr := join [newline] (py <$> ls).

Definition cuisine_regions : list pystr :=
  py <$> ["Any"; "Andhra"; "Telangana"; "South Indian"; "North Indian"; "Bengali";
          "Gujarati"; "Maharashtrian"; "Rajasthani"; "Punjab"]%string.

Definition vision_prompt : pystr := text_block [
"";
"            Analyze this image and identify Indian ingredients including:";
"            1. All visible food items, spices, and ingredients";
"            2. Approximate quantities if visible";
"            3. Condition (e.g., fresh, dried, powdered)";
"            4. Any visible packaging or storage containers";
"            ";
"            Pay special attention to Indian spices, lentils, rice varieties, and fresh ingredients.";
"            Format as a comma-separated list with details in parentheses.";
"            Example: haldi powder (2 tbsp), fresh curry leaves (1 bunch), basmati rice (1 cup)";
"            ";
"            Add any common Indian ingredients that might pair well with the visible ingredients.";
"            "
]%string.

(** [identify_ingredients_from_image(self, uploaded_file)] *)
Definition identify_ingredients_from_image (uploaded : bytes) : app (list pystr) :=
  try_except except_Exception
    (lift (image_open svc uploaded);;
     text ← request (vision_request vision_prompt (py "image/jpeg") uploaded)
              (fun before => vision_generate_content svc before vision_prompt uploaded);
     let ingredients_list := strip <$> split comma (strip text) in
     mret ingredients_list)
    (fun e =>
       emit (st_error (py "Error identifying ingredients: " ++ exn_str e));;
       mret []).

(** The Telugu words at the end of the search query (two words). *)
Definition telugu_vantalu : pystr :=
  [3108; 3142; 3122; 3137; 3095; 3137; 32; 3125; 3074; 3103; 3122; 3137].

(** The Telugu half of the video heading (two words). *)
Definition vantakam_video : pystr :=
  [3125; 3074; 3103; 3093; 3074; 32; 3125; 3136; 3105; 3135; 3119; 3147].

(** The search query and the call [self.youtube.search().list(...)] that
    builds the request. *)
Definition search_list (name region : pystr) : search_request :=
  let search_query :=
    name ++ py " " ++ region ++ py " recipe in telugu vantalu " ++ telugu_vantalu in
  {| part := py "snippet"; q := search_query; type_ := py "video";
     maxResults := 1; relevanceLanguage := py "te"; regionCode := py "IN" |}.

(** [search_telugu_recipe_video(self, recipe_name, region)] *)
Definition search_telugu_recipe_video (name region : pystr) : app (option pystr) :=
  try_except except_HttpError
    (let req := search_list name region in
     items ← request (youtube_request req) (fun before => youtube_execute svc before req);
     match items with
     | item :: _ => mret (Some (py "https://www.youtube.com/watch?v=" ++ videoId item))
     | [] => mret None
     end)
    (fun e =>
       emit (st_error (py "Error searching YouTube: " ++ exn_str e));;
       mret None).

(** [safe_generate_content(self, prompt)] *)
Definition safe_generate_content (prompt : pystr) : app (option pystr) :=
  try_except except_Exception
    (text ← request (model_request prompt)
              (fun before => model_generate_content svc before prompt);
     mret (Some text))
    (fun e =>
       emit (st_error (py "Error generating content: " ++ exn_str e));;
       mret None).

(** [l[i]] *)
Definition index {A} (l : list A) (i : nat) : app A :=
  match l !! i with
  | Some x => mret x
  | None => raise (Exc {| exn_type := IndexError; exn_str := py "list index out of range" |})
  end.

(** The three lines of [generate_recipe] under the comment "Extract recipe
    names": [split], the slice [[:2]], and for each of the two lines
    [replace('#', '')] then [strip()]. *)
Definition extract_recipe_names (result : pystr) : app (pystr * pystr) :=
  let recipe_lines := take 2 (split newline result) in
  line0 ← index recipe_lines 0;
  let recipe_name_en := strip (remove_char hash line0) in
  line1 ← index recipe_lines 1;
  let recipe_name_te := strip (remove_char hash line1) in
  mret (recipe_name_en, recipe_name_te).

(** The f-string handed to the text model, line by line. *)
Definition recipe_prompt (region : pystr) (identified_ingredients : list pystr)
    (spice_level : N) (meal_type : pystr) (cooking_time : N) : pystr :=
  join [newline] ([
    py "";
    py "            Create a detailed " ++ region
      ++ py " Indian recipe using these ingredients: "
      ++ join (py ", ") identified_ingredients ++ py ".";
    py "            ";
    py "            Region: "
      ++ (if bool_decide (region ≠ py "Any") then region else py "Indian");
    py "            Spice Level: " ++ str_of_N spice_level ++ py "/5";
    py "            Type of Dish: "
      ++ (if bool_decide (meal_type ≠ py "Any") then meal_type else py "Any");
    py "            Maximum cooking time: " ++ str_of_N cooking_time ++ py " minutes";
    py ""] ++ (py <$> [
    "            Format your response as follows:";
    "            ";
    "            # [RECIPE NAME IN ENGLISH]";
    "            # [RECIPE NAME IN TELUGU]";
    "            ";
    "            ## Ingredients";
    "            - [List all ingredients with measurements]";
    "            ";
    "            ## Instructions";
    "            1. [Step-by-step cooking instructions]";
    "            2. [...]";
    "            ";
    "            ## Tips";
    "            - [1-3 cooking tips specific to Indian cuisine]";
    "            ";
    "            ## Serving Suggestions";
    "            - [What to serve this dish with]";
    "            ";
    "            Important: Use the identified ingredients and suggest common Indian substitutes if needed.";
    "            Include traditional cooking methods and authentic spicing.";
    "            "]%string)).

(** [cursor.execute('INSERT INTO saved_recipes ...', params)] on
    [self.conn]; a refused INSERT raises [sqlite3.OperationalError]. *)
Definition execute_insert (r : recipe) : app Z :=
  fun w =>
    match Store.insert r (conn w) with
    | Some (id, t) => (Ok id, {| conn := t; page := page w; widgets := widgets w |})
    | None =>
        (Raise (Exc {| exn_type := OperationalError;
                       exn_str := py "database or disk is full" |}), w)
    end.

(** [cursor.execute('DELETE FROM saved_recipes WHERE id = ?', (id,))] *)
Definition execute_delete (id : Z) : app unit :=
  fun w => (Ok tt, {| conn := Store.delete id (conn w); page := page w;
                      widgets := widgets w |}).

(** A SELECT followed by a fetch reads [self.conn] and leaves it as it is. *)
Definition query {A} (f : saved_recipes -> A) : app A :=
  fun w => (Ok (f (conn w)), w).

(** [datetime.now()] *)
Definition now : app datetime :=
  fun w => (Ok (datetime_now svc (page w)), w).

(** The heading above a video: Telugu, then English. *)
Definition video_heading : pystr := vantakam_video ++ py " / Recipe Video".

(** The body of [if st.button("Save Recipe"):] in [generate_recipe]. *)
Definition save_recipe (recipe_name_en recipe_name_te region : pystr)
    (identified_ingredients : list pystr) (result : pystr) (video : option pystr)
  : app unit :=
  try_except except_Exception
    (let ingredients_text := join (py ", ") identified_ingredients in
     t ← now;
     execute_insert
       {| recipe_name := recipe_name_en;
          recipe_name_telugu := Some recipe_name_te;
          Store.region := region;
          ingredients := ingredients_text;
          instructions := result;
          video_link := video;
          created_date := strftime t |};;
     emit sql_commit;;
     emit (st_success (py "Recipe saved successfully!"));;
     emit st_balloons)
    (fun e => emit (st_error (py "Error saving recipe: " ++ exn_str e))).

(** The body of [if st.button("Generate Recipe") and identified_ingredients:]. *)
Definition generate_and_show (region : pystr) (identified_ingredients : list pystr)
    (spice_level : N) (meal_type : pystr) (cooking_time : N) : app unit :=
  let prompt :=
    recipe_prompt region identified_ingredients spice_level meal_type cooking_time in
  emit (st_spinner (py "Creating your Indian recipe..."));;
  result ← safe_generate_content prompt;
  match result with
  | Some (c :: text) =>
      let result := c :: text in
      emit (st_markdown result);;
      names ← extract_recipe_names result;
      emit (st_spinner (py "Finding a Telugu video tutorial..."));;
      video ← search_telugu_recipe_video names.1 region;
      (if truthy video
       then emit (st_subheader video_heading);;
            emit (st_video (default [] video))
       else skip);;
      save ← st_button (py "Save Recipe") None;
      if save : bool
      then save_recipe names.1 names.2 region identified_ingredients result video
      else skip
  | _ => skip
  end.

(** [generate_recipe(self)], the "Generate Recipe" page. *)
Definition generate_recipe : app unit :=
  emit (st_title (127858 :: py " Indian Recipe Generator"));;
  emit (st_subheader (py "Upload a photo of your ingredients"));;
  uploaded ← st_file_uploader (py "Choose an image...");
  identified_ingredients ←
    match uploaded with
    | Some file =>
        lift (image_open svc file);;
        emit (st_image file (py "Uploaded Ingredients"));;
        emit (st_spinner (py "Analyzing your ingredients..."));;
        identified ← identify_ingredients_from_image file;
        (if truthy_list identified
         then emit (st_success (py "Identified ingredients:"));;
              for_each identified (fun ingredient =>
                emit (st_write (8226 :: py " " ++ ingredient)))
         else emit (st_warning (py
                "No ingredients identified. Please try another image with clearer food items.")));;
        mret identified
    | None => mret []
    end;
  region ← st_selectbox (py "Select Region/Cuisine") cuisine_regions;
  spice_level ← st_slider (py "Spice Level");
  meal_type ← st_selectbox (py "Type of Dish")
    (py <$> ["Any"; "Curry"; "Rice Dish"; "Breakfast"; "Snack"; "Sweet"; "Chutney";
             "Roti/Bread"]%string);
  cooking_time ← st_slider (py "Maximum cooking time (minutes)");
  generate ← st_button (py "Generate Recipe") None;
  if generate && truthy_list identified_ingredients
  then generate_and_show region identified_ingredients spice_level meal_type cooking_time
  else if negb (truthy_list identified_ingredients)
  then
    again ← st_button (py "Generate Recipe") None;
    if again : bool
    then emit (st_warning (py "Please upload a photo of your ingredients first"))
    else skip
  else skip.

(** [view_recipe_details(self, recipe_id)] *)
Definition view_recipe_details (recipe_id : Z) : app unit :=
  recipe ← query (select_details recipe_id);
  match recipe with
  | Some (recipe_name, recipe_name_te, instructions, video) =>
      emit (st_subheader (recipe_name ++ py " / " ++ format_opt recipe_name_te));;
      emit (st_markdown instructions);;
      if truthy video
      then emit (st_subheader video_heading);;
           emit (st_video (default [] video))
      else skip
  | None => emit (st_error (py "Recipe not found!"))
  end.

(** [delete_recipe(self, recipe_id)] *)
Definition delete_recipe (recipe_id : Z) : app unit :=
  execute_delete recipe_id;;
  emit sql_commit;;
  emit (st_success (py "Recipe deleted!"));;
  emit st_balloons.

(** [st.rerun()] *)
Definition st_rerun : app unit := raise RerunException.

(** [view_saved_recipes(self)], the "Saved Recipes" page. *)
Definition view_saved_recipes : app unit :=
  emit (st_title (128218 :: py " My Saved Recipes"));;
  recipes ← query select_all;
  if truthy_list recipes
  then
    for_each recipes (fun recipe =>
      emit (st_write (py "**" ++ s_recipe_name recipe ++ py "**"));;
      emit (st_write (py "*" ++ format_opt (s_recipe_name_telugu recipe) ++ py "*"));;
      emit (st_write (py "Region: " ++ s_region recipe));;
      emit (st_write (py "Ingredients: " ++ s_ingredients recipe));;
      view ← st_button (py "View") (Some (py "view_" ++ str_of_Z (s_id recipe)));
      (if view : bool then view_recipe_details (s_id recipe) else skip);;
      del ← st_button (py "Delete") (Some (py "del_" ++ str_of_Z (s_id recipe)));
      (if del : bool then delete_recipe (s_id recipe);; st_rerun else skip);;
      emit st_divider)
  else
    emit (st_info (py
      "No saved recipes yet. Upload ingredients and generate recipes to get started!")).

End methods.

(** [IndianRecipeSystem()] at the start of a script run: open the database
    file and make sure the table is there; nothing is on the page yet. *)
Definition start (db : option saved_recipes) : world :=
  {| conn := create_recipes_table db; page := []; widgets := [] |}.

End App.

(** ** Observations used to state the properties *)

Module Observe.

Import Clock Store App.

(** What the libraries answer when the Vision Identifier runs on a file in
    state [w]: PIL opens the file, then the model is asked. *)
Definition vision_answer (svc : services) (file : bytes) (w : world) : result exn pystr :=
  match image_open svc file with
  | Raise e => Raise e
  | Ok _ => vision_generate_content svc (page w) vision_prompt file
  end.

(** Title extraction as the specification words it: only the markers at
    the head of the line go, with the whitespace around. *)
Fixpoint drop_markers (s : pystr) : pystr :=
  match s with
  | [] => []
  | c :: s' => if c =? hash then drop_markers s' else s
  end.

Definition spec_title (line : pystr) : pystr := strip (drop_markers (strip line)).

(** The table can take one more row: the largest rowid has not been used. *)
Definition has_room (t : saved_recipes) : Prop :=
  sqlite_sequence t ≠ MAX_ROWID ∧ ∀ k, is_Some (rows t !! k) → (k < MAX_ROWID)%Z.

(** Every row of [t] is in [t'], with the same id and the same fields. *)
Definition keeps_rows (t t' : saved_recipes) : Prop :=
  ∀ id r, get id t = Some r → get id t' = Some r.

(** A computation whose effect on the database, from any state, stays
    within the relation [R]. *)
Definition moves_by {A} (R : relation saved_recipes) (c : app A) : Prop :=
  ∀ w, R (conn w) (conn (c w).2).

(** The Delete button of the row [id] on the "Saved Recipes" page was
    clicked. *)
Definition delete_clicked (inp : inputs) (id : Z) : bool :=
  clicked inp {| w_type := button; w_label := py "Delete";
                 w_key := Some (py "del_" ++ str_of_Z id) |}.

(** Every row of [t] whose Delete button was not clicked is in [t']. *)
Definition keeps_unclicked (inp : inputs) (t t' : saved_recipes) : Prop :=
  ∀ id r, get id t = Some r → delete_clicked inp id = false → get id t' = Some r.

(** What reaches the store over its lifetime: a Save, with the row built
    by the page and the clock reading at that moment, or a Delete. *)
Inductive action :=
| Save (r : recipe) (reading : datetime)
| Delete (id : Z).

(** The row a Save inserts: [created_date] is the formatted reading. *)
Definition stamped (r : recipe) (reading : datetime) : recipe :=
  {| recipe_name := recipe_name r; recipe_name_telugu := recipe_name_telugu r;
     region := region r; ingredients := ingredients r;
     instructions := instructions r; video_link := video_link r;
     created_date := strftime reading |}.

(** The actions applied in order; besides the final table, the id and
    the [created_date] of every row inserted, oldest first.  A refused
    INSERT is reported to the user and changes nothing. *)
Fixpoint replay (acts : list action) (t : saved_recipes)
  : list (Z * pystr) * saved_recipes :=
  match acts with
  | [] => ([], t)
  | Save r reading :: rest =>
      match Store.insert (stamped r reading) t with
      | Some (id, t') =>
          let out := replay rest t' in
          ((id, strftime reading) :: out.1, out.2)
      | None => replay rest t
      end
  | Delete id :: rest => replay rest (Store.delete id t)
  end.

(** The clock readings of the Saves, in order. *)
Fixpoint readings (acts : list action) : list datetime :=
  match acts with
  | [] => []
  | Save _ reading :: rest => reading :: readings rest
  | Delete _ :: rest => readings rest
  end.

(** No row has an id above the recorded sequence: what holds of a table
    that only this script has written to. *)
Definition well_sequenced (t : saved_recipes) : Prop :=
  ∀ k, is_Some (rows t !! k) → (k ≤ sqlite_sequence t)%Z.

(** [a] is not later than [b]. *)
Definition not_later (a b : datetime) : Prop := chrono a b ≠ Gt.

End Observe.

(** ** Concrete runs *)

Module Scenario.

Import Clock Store App.

Definition noon : datetime :=
  {| year := 2024; month := 3; day := 9; hour := 12; minute := 0; second := 0 |}.

(** Every service answers. *)
Definition online : services :=
  {| image_open := fun _ => Ok tt;
     vision_generate_content := fun _ _ _ =>
       Ok (py "basmati rice (1 cup), turmeric (1 tsp)");
     model_generate_content := fun _ _ =>
       Ok (text_block ["# Turmeric Rice"; "# Pasupu Annam"; ""; "## Ingredients"]%string);
     youtube_execute := fun _ _ => Ok [{| videoId := py "dQw4w9WgXcQ" |}];
     datetime_now := fun _ => noon |}.

(** The network is down: the transport below the YouTube client raises. *)
Definition offline : services :=
  {| image_open := image_open online;
     vision_generate_content := vision_generate_content online;
     model_generate_content := model_generate_content online;
     youtube_execute := fun _ _ =>
       Raise {| exn_type := ServerNotFoundError;
                exn_str := py "Unable to find the server at youtube.googleapis.com" |};
     datetime_now := datetime_now online |}.

(** The text model answers with a single line. *)
Definition terse : services :=
  {| image_open := image_open online;
     vision_generate_content := vision_generate_content online;
     model_generate_content := fun _ _ => Ok (py "Sorry, I cannot help with that.");
     youtube_execute := youtube_execute online;
     datetime_now := datetime_now online |}.

Definition preferences (label : pystr) : pystr :=
  if bool_decide (label = py "Select Region/Cuisine") then py "South Indian"
  else py "Rice Dish".

Definition sliders (label : pystr) : N :=
  if bool_decide (label = py "Spice Level") then 3 else 30.

(** A photo was uploaded and "Generate Recipe" was clicked. *)
Definition photo_and_generate : inputs :=
  {| uploaded_file := Some [Byte.xff; Byte.xd8; Byte.xff];
     selected := preferences;
     slid := sliders;
     clicked := fun x => bool_decide (w_label x = py "Generate Recipe") |}.

(** No photo was uploaded and "Generate Recipe" was clicked. *)
Definition generate_without_photo : inputs :=
  {| uploaded_file := None;
     selected := preferences;
     slid := sliders;
     clicked := fun x => bool_decide (w_label x = py "Generate Recipe") |}.

Definition at_time (h : N) : recipe :=
  {| recipe_name := py "Turmeric Rice"; recipe_name_telugu := Some (py "Pasupu Annam");
     region := py "South Indian"; ingredients := py "basmati rice (1 cup)";
     instructions := py "# Turmeric Rice"; video_link := None;
     created_date := strftime {| year := 2024; month := 3; day := 9;
                                 hour := h; minute := 0; second := 0 |} |}.

(** Three rows, saved at 9, at 14 and at 11 o'clock. *)
Definition three_rows : saved_recipes :=
  {| rows := {[ 1%Z := at_time 9; 2%Z := at_time 14; 3%Z := at_time 11 ]};
     sqlite_sequence := 3 |}.

Definition morning : datetime :=
  {| year := 2024; month := 3; day := 9; hour := 9; minute := 30; second := 0 |}.

(** The same services after the system clock was set back to the morning. *)
Definition clock_set_back : services :=
  {| image_open := image_open online;
     vision_generate_content := vision_generate_content online;
     model_generate_content := model_generate_content online;
     youtube_execute := youtube_execute online;
     datetime_now := fun _ => morning |}.

End Scenario.

(** ** The script around the class: configuration and [main] *)

Module Script.

Import Clock Store App.

(** [try: body / except: handler]: a bare [except] stops whatever is
    raised. *)
Definition try_bare {A} (body : app A) (handler : app A) : app A :=
  fun w =>
    match body w with
    | (Raise _, w') => handler w'
    | r => r
    end.

(** The text of the Home page. *)
Definition home_text : pystr :=
  join [newline] [
    py "";
    py "        ### Turn Your Ingredients Into Delicious Indian Dishes!";
    py "        ";
    py "        This system helps you:";
    py "        - " ++ [128248] ++ py " Upload photos of your ingredients for automatic identification";
    py "        - " ++ [127835] ++ py " Get personalized Indian recipes based on your available ingredients";
    py "        - " ++ [127909] ++ py " Watch Telugu video tutorials for your recipes";
    py "        - " ++ [128218] ++ py " Save your favorite recipes for later";
    py "        ";
    py "        Get started by uploading a photo of your ingredients!";
    py "        "].

Definition navigation : list pystr :=
  py <$> ["Home"; "Generate Recipe"; "Saved Recipes"]%string.

Section script.

Variable svc : services.
Variable inp : inputs.

(** The [else] branch of [main]: the Home page. *)
Definition home : app unit :=
  emit (st_title (py "Welcome to the Indian Recipe Generator! " ++ [127858]));;
  emit (st_markdown home_text);;
  try_bare
    (count ← query Store.count;
     if (0 <? count)%nat
     then emit (st_success (py "You have saved " ++ str_of_N (N.of_nat count)
                            ++ py " recipes so far!"))
     else skip)
    skip.

(** [main()], after [system = IndianRecipeSystem()]: the sidebar and the
    page it selects.  The containers of the page (sidebar, columns) are
    not told apart, so the sidebar title is one more title; and
    [st.set_page_config] draws nothing.  Building the YouTube client in
    [__init__] sends no request. *)
Definition pages : app unit :=
  emit (st_title (127858 :: py " Indian Recipe Generator"));;
  choice ← st_selectbox inp (py "Navigate") navigation;
  if bool_decide (choice = py "Generate Recipe") then generate_recipe svc inp
  else if bool_decide (choice = py "Saved Recipes") then view_saved_recipes inp
  else home.

(** [main()], on the database file as it was found. *)
Definition main (db : option saved_recipes) : result raised unit * world :=
  pages (start db).

(** How a run of the script file ends: at a [st.stop()], or with what
    [main()] returned or raised. *)
Inductive script_end :=
| Stopped
| Finished (r : result raised unit).

(** The script file from the top: the two keys read from the environment
    ([None] when the variable is not set), each checked with [if not KEY:],
    then [main()].  Returns how the run ended, the page, and the database
    file after the run. *)
Definition script (GEMINI_API_KEY YOUTUBE_API_KEY : option pystr)
    (db : option saved_recipes) : script_end * list event * option saved_recipes :=
  if negb (truthy GEMINI_API_KEY)
  then (Stopped,
        [st_error (py "Gemini API key not found. Please add it to your .env file.")],
        db)
  else if negb (truthy YOUTUBE_API_KEY)
  then (Stopped,
        [st_error (py "YouTube API key not found. Please add it to your .env file.")],
        db)
  else
    let run := main db in
    (Finished run.1, page run.2, Some (conn run.2)).

End script.

End Script.

(** ** Further vocabulary for the properties *)

Module Notions.

Import Clock Store App Observe.

(** [needle in hay] for two strings. *)
Definition contains (needle hay : pystr) : Prop :=
  ∃ before after, hay = before ++ needle ++ after.

(** A string with no comma that is its own [strip()]. *)
Definition clean (item : pystr) : Prop := (comma ∉ item) ∧ strip item = item.

(** The buttons of one saved row. *)
Definition view_button (id : Z) : widget :=
  {| w_type := button; w_label := py "View"; w_key := Some (py "view_" ++ str_of_Z id) |}.

Definition delete_button (id : Z) : widget :=
  {| w_type := button; w_label := py "Delete"; w_key := Some (py "del_" ++ str_of_Z id) |}.

Definition row_widgets (r : summary) : list widget :=
  [view_button (s_id r); delete_button (s_id r)].

(** What the detail view draws for a row. *)
Definition details_events (r : recipe) : list event :=
  [st_subheader (recipe_name r ++ py " / " ++ format_opt (recipe_name_telugu r));
   st_markdown (instructions r)]
  ++ (if truthy (video_link r)
      then [st_subheader video_heading; st_video (default [] (video_link r))]
      else []).

(** What the "Saved Recipes" page draws for one row whose Delete button
    was not clicked: its four lines, the detail view of the row if its View
    button was clicked, and a divider. *)
Definition row_events_viewed (inp : inputs) (t : saved_recipes) (r : summary)
  : list event :=
  [st_write (py "**" ++ s_recipe_name r ++ py "**");
   st_write (py "*" ++ format_opt (s_recipe_name_telugu r) ++ py "*");
   st_write (py "Region: " ++ s_region r);
   st_write (py "Ingredients: " ++ s_ingredients r)]
  ++ (if clicked inp (view_button (s_id r))
      then match get (s_id r) t with
           | Some row => details_events row
           | None => [st_error (py "Recipe not found!")]
           end
      else [])
  ++ [st_divider].

(** A computation that, started on the table [t], either leaves it as it
    is, or deletes one row of it whose Delete button was clicked and ends
    the run with [RerunException]. *)
Definition deletes_at_most_once (inp : inputs) (t : saved_recipes) {A} (c : app A) : Prop :=
  ∀ w, conn w = t →
    match c w with
    | (Ok _, w') => conn w' = t
    | (Raise e, w') =>
        conn w' = t
        ∨ (e = RerunException
           ∧ ∃ id, delete_clicked inp id = true
                   ∧ is_Some (get id t)
                   ∧ conn w' = Store.delete id t)
    end.

(** The widgets of the "Generate Recipe" page, down to the Generate
    button. *)
Definition generate_button : widget :=
  {| w_type := button; w_label := py "Generate Recipe"; w_key := None |}.

Definition generate_page_widgets : list widget :=
  [{| w_type := file_uploader; w_label := py "Choose an image..."; w_key := None |};
   {| w_type := selectbox; w_label := py "Select Region/Cuisine"; w_key := None |};
   {| w_type := slider; w_label := py "Spice Level"; w_key := None |};
   {| w_type := selectbox; w_label := py "Type of Dish"; w_key := None |};
   {| w_type := slider; w_label := py "Maximum cooking time (minutes)"; w_key := None |};
   generate_button].

(** A request to the text model or to YouTube. *)
Definition is_generation_request (e : event) : bool :=
  match e with
  | model_request _ | youtube_request _ => true
  | _ => false
  end.

End Notions.

(** ** More concrete runs *)

Module Cases.

Import Clock Store App Scenario.

(** A photo was uploaded and nothing was clicked. *)
Definition photo_only : inputs :=
  {| uploaded_file := Some [Byte.xff; Byte.xd8; Byte.xff];
     selected := preferences;
     slid := sliders;
     clicked := fun _ => false |}.

(** PIL cannot read what was uploaded. *)
Definition unreadable : services :=
  {| image_open := fun _ =>
       Raise {| exn_type := UnidentifiedImageError;
                exn_str := py "cannot identify image file" |};
     vision_generate_content := vision_generate_content online;
     model_generate_content := model_generate_content online;
     youtube_execute := youtube_execute online;
     datetime_now := datetime_now online |}.

(** A saved row whose video link is the empty string. *)
Definition empty_link : recipe :=
  {| recipe_name := py "Turmeric Rice"; recipe_name_telugu := None;
     region := py "Any"; ingredients := py "rice"; instructions := py "# Turmeric Rice";
     video_link := Some []; created_date := strftime noon |}.

Definition with_empty_link : world :=
  {| conn := {| rows := {[ 7%Z := empty_link ]}; sqlite_sequence := 7 |};
     page := []; widgets := [] |}.

(** The "Saved Recipes" page with the Delete button of row 2 clicked. *)
Definition delete_second : inputs :=
  {| uploaded_file := None;
     selected := fun _ => py "Saved Recipes";
     slid := sliders;
     clicked := fun x => bool_decide (w_key x = Some (py "del_2")) |}.

(** The sidebar left on "Home", nothing clicked. *)
Definition at_home : inputs :=
  {| uploaded_file := None;
     selected := fun _ => py "Home";
     slid := sliders;
     clicked := fun _ => false |}.

End Cases.

(** * Properties *)

Import Clock Store App Observe Scenario.

(** ** Strings *)

Section pystr_facts.

Implicit Types (s w : pystr) (c sep : char).

Lemma split_not_nil sep s : split sep s ≠ [].
Proof.
  destruct s as [|c s]; simpl; [done|].
  destruct (c =? sep); [done|]. by destruct (split sep s).
Qed.

Lemma split_cons sep s : ∃ w ws, split sep s = w :: ws.
Proof.
  destruct (split sep s) as [|w ws] eqn:E; [by apply split_not_nil in E|eauto].
Qed.

Lemma lstrip_idemp s : lstrip (lstrip s) = lstrip s.
Proof.
  induction s as [|c s IH]; simpl; [done|].
  destruct (is_space c) eqn:E; [done|]. simpl. by rewrite E.
Qed.

Lemma rstrip_nil_spaces s : rstrip s = [] → Forall (λ c, is_space c = true) s.
Proof.
  induction s as [|c s IH]; simpl; [constructor|].
  destruct (rstrip s) eqn:E; [|done].
  destruct (is_space c) eqn:Ec; [|done].
  intros _. constructor; auto.
Qed.

Lemma split_spaces sep s :
  is_space sep = false → Forall (λ c, is_space c = true) s → split sep s = [s].
Proof.
  intros Hsep. induction 1 as [|c s Hc _ IH]; simpl; [done|].
  destruct (N.eqb_spec c sep) as [->|_]; [congruence|]. by rewrite IH.
Qed.

(** The two halves of [strip] commute. *)
Lemma rstrip_lstrip s : rstrip (lstrip s) = lstrip (rstrip s).
Proof.
  induction s as [|c s IH]; [done|].
  cbn [lstrip rstrip]. destruct (is_space c) eqn:Ec.
  - rewrite IH. destruct (rstrip s) as [|x r]; simpl; rewrite ?Ec; done.
  - cbn [rstrip]. destruct (rstrip s) as [|x r]; simpl; rewrite Ec; done.
Qed.

(** Stripping the left end of a string only touches its first field. *)
Lemma split_lstrip sep s :
  is_space sep = false →
  split sep (lstrip s) =
    match split sep s with
    | w :: ws => lstrip w :: ws
    | [] => []
    end.
Proof.
  intros Hsep. induction s as [|c s IH]; [done|].
  cbn [lstrip]. destruct (is_space c) eqn:Ec.
  - rewrite IH. cbn [split].
    destruct (N.eqb_spec c sep) as [->|_]; [congruence|].
    destruct (split_cons sep s) as (w & ws & ->). simpl. by rewrite Ec.
  - cbn [split]. destruct (c =? sep); [done|].
    destruct (split_cons sep s) as (w & ws & ->). simpl. by rewrite Ec.
Qed.

(** Stripping the right end of a string changes no right-stripped field. *)
Lemma split_rstrip sep s :
  is_space sep = false →
  rstrip <$> split sep (rstrip s) = rstrip <$> split sep s.
Proof.
  intros Hsep. induction s as [|c s IH]; [done|].
  cbn [rstrip]. destruct (rstrip s) as [|x r] eqn:Er.
  - apply rstrip_nil_spaces in Er as Hs.
    cbn [split]. rewrite (split_spaces sep s Hsep Hs).
    destruct (is_space c) eqn:Ec.
    + destruct (N.eqb_spec c sep) as [->|_]; [congruence|].
      simpl. by rewrite Er, Ec.
    + cbn [split]. destruct (c =? sep); simpl; by rewrite Er, ?Ec.
  - remember (x :: r) as t eqn:Et. clear Et Er.
    cbn [split]. destruct (c =? sep); [by rewrite !fmap_cons, IH|].
    destruct (split_cons sep t) as (w & ws & E).
    destruct (split_cons sep s) as (w' & ws' & E').
    rewrite E, E' in *. rewrite !fmap_cons in *.
    injection IH as Hw Hws. f_equal; [|done].
    cbn [rstrip]. by rewrite Hw.
Qed.

(** [text.strip().split(',')] followed by a [strip()] of every field is
    [text.split(',')] followed by a [strip()] of every field. *)
Lemma strip_split_strip sep s :
  is_space sep = false →
  strip <$> split sep (strip s) = strip <$> split sep s.
Proof.
  intros Hsep.
  assert (Hmap : ∀ l : list pystr, strip <$> l = lstrip <$> (rstrip <$> l)).
  { intros l. rewrite <-list_fmap_compose. apply list_fmap_ext.
    intros _ w _. simpl. apply rstrip_lstrip. }
  unfold strip at 2. rewrite Hmap, split_rstrip, <-Hmap by done.
  rewrite split_lstrip by done.
  destruct (split_cons sep s) as (w & ws & ->).
  rewrite !fmap_cons. f_equal. unfold strip. by rewrite lstrip_idemp.
Qed.

End pystr_facts.

Example split_keeps_empty_fields :
  split comma (py "a,,b ") = [py "a"; py ""; py "b "].
Proof. reflexivity. Qed.

Example strip_both_ends :
  strip (py "  haldi powder (2 tbsp) ") = py "haldi powder (2 tbsp)".
Proof. reflexivity. Qed.

(** ** The Vision Identifier *)

Section vision.

Variable svc : services.

(** C1. For every uploaded file and every state of the run,
    [identify_ingredients_from_image] returns a list and never raises.  When
    PIL and the vision model answer with a text, the list is that text split
    on commas with every item stripped of surrounding whitespace (never the
    empty list), and no error is shown; when either of them raises an
    exception, the list is empty and the last thing on the page is the error
    message carrying the text of the exception.  The database and the
    widgets are left alone. *)
Theorem identify_ingredients_safe_empty (file : bytes) (w : world) :
  ∃ items w',
    identify_ingredients_from_image svc file w = (Ok items, w')
    ∧ conn w' = conn w ∧ widgets w' = widgets w
    ∧ match vision_answer svc file w with
      | Ok text =>
          items = strip <$> split comma text
          ∧ items ≠ []
          ∧ page w' = page w ++ [vision_request vision_prompt (py "image/jpeg") file]
      | Raise e =>
          items = []
          ∧ ∃ before,
              page w' =
                before ++ [st_error (py "Error identifying ingredients: " ++ exn_str e)]
      end.
Proof.
  unfold identify_ingredients_from_image, vision_answer, try_except, request.
  unfold mbind, app_bind, mret, app_ret, bind, lift, emit, ret, raise.
  destruct (image_open svc file) as [[]|e]; simpl.
  - destruct (vision_generate_content svc (page w) vision_prompt file) as [text|e]; simpl.
    + eexists _, _. split; [done|]. split_and!; try done.
      * by apply strip_split_strip.
      * rewrite strip_split_strip by done.
        destruct (split_cons comma text) as (x & xs & ->). done.
    + eexists _, _. split; [done|]. split_and!; try done. eauto.
  - eexists _, _. split; [done|]. split_and!; try done. eauto.
Qed.

End vision.

(** ** The Video Finder *)

Section video.

Variable svc : services.

Lemma search_telugu_recipe_video_run (name region : pystr) (w : world) :
  let req := search_list name region in
  let asked := {| conn := conn w; page := page w ++ [youtube_request req];
                  widgets := widgets w |} in
  search_telugu_recipe_video svc name region w =
    match youtube_execute svc (page w) req with
    | Ok [] => (Ok None, asked)
    | Ok (item :: _) =>
        (Ok (Some (py "https://www.youtube.com/watch?v=" ++ videoId item)), asked)
    | Raise e =>
        if bool_decide (exn_type e = HttpError)
        then (Ok None,
              {| conn := conn w;
                 page := page asked ++ [st_error (py "Error searching YouTube: " ++ exn_str e)];
                 widgets := widgets w |})
        else (Raise (Exc e), asked)
    end.
Proof.
  unfold search_telugu_recipe_video, try_except, request, except_HttpError.
  unfold mbind, app_bind, mret, app_ret, bind, lift, emit, ret, raise. simpl.
  destruct (youtube_execute svc (page w) (search_list name region)) as [[|item items]|e];
    simpl; [done..|].
  by destruct (bool_decide (exn_type e = HttpError)).
Qed.

(** C2, as amended.  The Video Finder sends exactly one search request.  It
    returns the URL [https://www.youtube.com/watch?v=<id>] of the first item
    when the answer has one, and [None] when the answer has no item or when
    the call raises [HttpError] (then the error is shown).  An exception of
    any other class leaves the function, after the one request, with nothing
    shown. *)
Theorem search_video_first_or_none (name region : pystr) (w : world) :
  let req := search_list name region in
  let run := search_telugu_recipe_video svc name region w in
  conn run.2 = conn w ∧ widgets run.2 = widgets w
  ∧ match youtube_execute svc (page w) req with
    | Ok [] =>
        run.1 = Ok None ∧ page run.2 = page w ++ [youtube_request req]
    | Ok (item :: _) =>
        run.1 = Ok (Some (py "https://www.youtube.com/watch?v=" ++ videoId item))
        ∧ page run.2 = page w ++ [youtube_request req]
    | Raise e =>
        if bool_decide (exn_type e = HttpError)
        then run.1 = Ok None
             ∧ page run.2 =
                 page w ++ [youtube_request req;
                            st_error (py "Error searching YouTube: " ++ exn_str e)]
        else run.1 = Raise (Exc e) ∧ page run.2 = page w ++ [youtube_request req]
    end.
Proof.
  intros req run. unfold run, req. rewrite search_telugu_recipe_video_run.
  destruct (youtube_execute svc (page w) (search_list name region)) as [[|item items]|e];
    simpl; [done..|].
  destruct (bool_decide (exn_type e = HttpError)); simpl; [|done].
  by rewrite <-app_assoc.
Qed.

End video.

(** C2 as stated fails: with the network down the search call raises
    [ServerNotFoundError], and the Video Finder does not return [None]: the
    exception leaves it. *)
Lemma search_video_transport_error_escapes :
  let run := search_telugu_recipe_video offline (py "Turmeric Rice") (py "South Indian")
               (start None) in
  run.1 ≠ Ok None
  ∧ run.1 = Raise (Exc {| exn_type := ServerNotFoundError;
                          exn_str := py "Unable to find the server at youtube.googleapis.com" |}).
Proof. split; [|reflexivity]. by vm_compute. Qed.

(** ** Title extraction *)

Section titles.

Lemma split_no_sep (sep : char) (l : pystr) : sep ∉ l → split sep l = [l].
Proof.
  induction l as [|c l IH]; [done|]. intros Hsep. simpl.
  destruct (N.eqb_spec c sep) as [->|_]; [by destruct Hsep; left|].
  rewrite IH; [done|]. intros ?. apply Hsep. by right.
Qed.

Lemma split_line (sep : char) (l s : pystr) :
  sep ∉ l → split sep (l ++ sep :: s) = l :: split sep s.
Proof.
  induction l as [|c l IH]; intros Hsep; simpl.
  - by rewrite N.eqb_refl.
  - destruct (N.eqb_spec c sep) as [->|_]; [by destruct Hsep; left|].
    rewrite IH; [done|]. intros ?. apply Hsep. by right.
Qed.

Lemma lstrip_elem (x : char) (s : pystr) : x ∈ lstrip s → x ∈ s.
Proof.
  induction s as [|c s IH]; simpl; [done|].
  destruct (is_space c); [|done]. intros ?. right. auto.
Qed.

Lemma rstrip_elem (x : char) (s : pystr) : x ∈ rstrip s → x ∈ s.
Proof.
  induction s as [|c s IH]; simpl; [done|].
  destruct (rstrip s) as [|y r].
  - destruct (is_space c); [by intros ?%elem_of_nil|].
    intros ->%list_elem_of_singleton. by left.
  - intros [->|Hx]%elem_of_cons; [by left|]. right. auto.
Qed.

Lemma strip_no_hash (l : pystr) : hash ∉ strip (remove_char hash l).
Proof.
  intros [Hne _]%rstrip_elem%lstrip_elem%list_elem_of_filter. done.
Qed.

Lemma extract_recipe_names_split (text l1 l2 : pystr) (rest : list pystr) (w : world) :
  split newline text = l1 :: l2 :: rest →
  extract_recipe_names text w =
    (Ok (strip (remove_char hash l1), strip (remove_char hash l2)), w).
Proof.
  intros E. unfold extract_recipe_names. rewrite E. reflexivity.
Qed.

(** C6, as amended.  When the generated text has at least two lines (a
    first line [l1], a line break, a second line [l2], and then either the
    end of the text or a line break and anything), title extraction
    succeeds and looks at these two lines only: from each it removes every
    ['#'], wherever it stands, and then the surrounding whitespace.  Line 1
    gives the primary name, line 2 the localized one, and neither name
    contains a ['#']. *)
Theorem extract_recipe_names_two_lines (l1 l2 more : pystr) (w : world) :
  newline ∉ l1 → newline ∉ l2 →
  (more = [] ∨ head more = Some newline) →
  ∃ name_primary name_localized,
    extract_recipe_names (l1 ++ newline :: l2 ++ more) w =
      (Ok (name_primary, name_localized), w)
    ∧ name_primary = strip (remove_char hash l1)
    ∧ name_localized = strip (remove_char hash l2)
    ∧ (hash ∉ name_primary) ∧ (hash ∉ name_localized).
Proof.
  intros H1 H2 Hmore. eexists _, _. split_and!; [|done|done|..].
  - destruct Hmore as [->|Hmore].
    + apply (extract_recipe_names_split _ l1 l2 []).
      by rewrite app_nil_r, split_line, split_no_sep.
    + destruct more as [|c more]; [done|]. injection Hmore as ->.
      apply (extract_recipe_names_split _ l1 l2 (split newline more)).
      by rewrite !split_line.
  - apply strip_no_hash.
  - apply strip_no_hash.
Qed.

Lemma extract_recipe_names_two_lines_witness :
  ∃ name_primary name_localized,
    extract_recipe_names
      (py "# Turmeric Rice" ++ newline :: py "# Pasupu Annam" ++ newline :: py "## Ingredients")
      (start None) = (Ok (name_primary, name_localized), start None)
    ∧ name_primary = py "Turmeric Rice"
    ∧ name_localized = py "Pasupu Annam".
Proof.
  destruct (extract_recipe_names_two_lines (py "# Turmeric Rice") (py "# Pasupu Annam")
              (newline :: py "## Ingredients") (start None))
    as (n1 & n2 & Hrun & -> & -> & _).
  - apply (bool_decide_unpack _). vm_compute. exact I.
  - apply (bool_decide_unpack _). vm_compute. exact I.
  - right. reflexivity.
  - eexists _, _. split_and!; [exact Hrun|reflexivity..].
Defined.

(** A text without a line break has no second line: [recipe_lines[1]]
    raises [IndexError]. *)
Lemma extract_recipe_names_one_line (text : pystr) (w : world) :
  newline ∉ text →
  extract_recipe_names text w =
    (Raise (Exc {| exn_type := IndexError; exn_str := py "list index out of range" |}), w).
Proof.
  intros Hnl. unfold extract_recipe_names. by rewrite split_no_sep.
Qed.

End titles.

(** C6 as stated fails: a ['#'] inside the title is not a leading marker,
    yet it is removed. *)
Lemma extract_recipe_names_removes_inner_hash :
  let l1 := py "# Paneer #65" in
  let l2 := py "# Paneer 65 (Telugu)" in
  let text := join [newline] [l1; l2; py "## Ingredients"] in
  (extract_recipe_names text (start None)).1 = Ok (py "Paneer 65", py "Paneer 65 (Telugu)")
  ∧ spec_title l1 = py "Paneer #65"
  ∧ (extract_recipe_names text (start None)).1 ≠ Ok (spec_title l1, spec_title l2).
Proof. split_and!; [reflexivity..|]. by vm_compute. Qed.

(** C7 fails on the code.  The vision model names ingredients, "Generate
    Recipe" is clicked, and the text model answers with one line: the run
    of [generate_recipe] ends with an [IndexError] that nothing catches,
    after the answer was shown and before any video search or Save
    button. *)
Theorem generate_recipe_one_line_answer_raises :
  let run := generate_recipe terse photo_and_generate (start None) in
  run.1 = Raise (Exc {| exn_type := IndexError; exn_str := py "list index out of range" |})
  ∧ last (page run.2) = Some (st_markdown (py "Sorry, I cannot help with that.")).
Proof. split; reflexivity. Qed.

(** ** The Generate button *)

Section generate_button.

Variable svc : services.
Variable inp : inputs.

(** On a fresh run of the page with no file uploaded, the identified list
    is empty, so the [elif] of [generate_recipe] is evaluated whatever the
    first [st.button("Generate Recipe")] returned, and it calls
    [st.button("Generate Recipe")] again: the same widget twice in one run.
    The run ends there with [DuplicateWidgetID]; only the title and the
    heading are on the page, and no request was sent. *)
Lemma generate_recipe_without_upload (w : world) :
  uploaded_file inp = None →
  widgets w = [] →
  let run := generate_recipe svc inp w in
  run.1 = Raise (Exc {| exn_type := DuplicateWidgetID; exn_str := py "Generate Recipe" |})
  ∧ conn run.2 = conn w
  ∧ page run.2 =
      page w ++ [st_title (127858 :: py " Indian Recipe Generator");
                 st_subheader (py "Upload a photo of your ingredients")].
Proof.
  intros Hfile Hw. destruct w as [c p ws]. simpl in Hw. subst ws.
  unfold generate_recipe, st_file_uploader, st_selectbox, st_slider, st_button.
  unfold mbind, app_bind, mret, app_ret, bind, emit, register, ret. simpl.
  rewrite Hfile. simpl.
  destruct (clicked inp _); simpl; rewrite <-app_assoc; done.
Qed.

End generate_button.

(** C8 fails on the code.  No photo was uploaded and "Generate Recipe" is
    clicked: no generation request is sent, but the warning is not shown
    either.  The second [st.button("Generate Recipe")], in the [elif], is the
    widget the [if] already created, and the run ends with
    [DuplicateWidgetID]. *)
Theorem generate_without_photo_no_warning :
  let run := generate_recipe online generate_without_photo (start None) in
  run.1 = Raise (Exc {| exn_type := DuplicateWidgetID; exn_str := py "Generate Recipe" |})
  ∧ (st_warning (py "Please upload a photo of your ingredients first") ∉ page run.2)
  ∧ page run.2 = [st_title (127858 :: py " Indian Recipe Generator");
                  st_subheader (py "Upload a photo of your ingredients")].
Proof.
  split_and!; [reflexivity| |reflexivity].
  vm_compute. intros H. repeat (inversion H as [|? ? ? H']; clear H; rename H' into H).
Qed.

(** ** The order of strings *)

Section pystr_order.

Implicit Types a b c : pystr.

Lemma compare_refl a : PyStr.compare a a = Eq.
Proof. induction a as [|x a IH]; simpl; [done|]. by rewrite N.compare_refl. Qed.

Lemma compare_eq a b : PyStr.compare a b = Eq → a = b.
Proof.
  revert b. induction a as [|x a IH]; intros [|y b]; simpl; try done.
  destruct (N.compare_spec x y) as [->| |]; try done.
  intros H. f_equal. by apply IH.
Qed.

Lemma compare_antisym a b : PyStr.compare b a = CompOpp (PyStr.compare a b).
Proof.
  revert b. induction a as [|x a IH]; intros [|y b]; simpl; try done.
  rewrite (N.compare_antisym x y).
  destruct (x ?= y); simpl; auto.
Qed.

Lemma compare_lt_trans a b c :
  PyStr.compare a b = Lt → PyStr.compare b c = Lt → PyStr.compare a c = Lt.
Proof.
  revert b c. induction a as [|x a IH]; intros [|y b] [|z c]; simpl; try done.
  destruct (N.compare_spec x y) as [->|Hxy|Hxy]; try done.
  - destruct (N.compare_spec y z) as [->|Hyz|Hyz]; try done. apply IH.
  - intros _. destruct (N.compare_spec y z) as [->|Hyz|Hyz]; try done.
    + intros _. by apply N.compare_lt_iff in Hxy as ->.
    + intros _. assert (x < z)%N as ->%N.compare_lt_iff by lia. done.
Qed.

Lemma le_lt_or_eq a b : PyStr.le a b ↔ PyStr.lt a b ∨ a = b.
Proof.
  unfold PyStr.le, PyStr.lt. split.
  - destruct (PyStr.compare a b) eqn:E; [|by left|done].
    right. by apply compare_eq.
  - intros [->| ->]; [done|]. by rewrite compare_refl.
Qed.

#[global] Instance pystr_le_refl : Reflexive PyStr.le.
Proof. intros a. unfold PyStr.le. by rewrite compare_refl. Qed.

#[global] Instance pystr_lt_trans : Transitive PyStr.lt.
Proof. intros a b c. apply compare_lt_trans. Qed.

#[global] Instance pystr_le_trans : Transitive PyStr.le.
Proof.
  intros a b c [Hab| ->]%le_lt_or_eq [Hbc| ->]%le_lt_or_eq; apply le_lt_or_eq; auto.
  left. by etrans.
Qed.

Lemma pystr_le_total a b : PyStr.le a b ∨ PyStr.le b a.
Proof.
  unfold PyStr.le. rewrite (compare_antisym a b).
  destruct (PyStr.compare a b); simpl; auto.
Qed.

Lemma pystr_lt_irrefl a : ¬ PyStr.lt a a.
Proof. unfold PyStr.lt. by rewrite compare_refl. Qed.

End pystr_order.

(** ** The clock *)

Section clock_order.

Lemma compare_app (a a' b b' : pystr) :
  length a = length a' →
  PyStr.compare (a ++ b) (a' ++ b') =
    then_compare (PyStr.compare a a') (PyStr.compare b b').
Proof.
  revert a'. induction a as [|x a IH]; intros [|y a'] Hlen; simpl in *; try done.
  destruct (x ?= y); [|done..]. apply IH. lia.
Qed.

Lemma pad2_digits (n : N) :
  n < 100 →
  ∃ d1 d0, d1 < 10 ∧ d0 < 10 ∧ n = 10 * d1 + d0 ∧ pad2 n = [digit d1; digit d0].
Proof.
  intros Hn. exists (n / 10), (n mod 10).
  pose proof (N.div_mod n 10 ltac:(done)) as Hdm.
  pose proof (N.mod_lt n 10 ltac:(done)) as Hlt.
  split_and!; [|done..].
  apply N.Div0.div_lt_upper_bound. lia.
Qed.

Lemma pad4_digits (n : N) :
  n < 10000 →
  ∃ d3 d2 d1 d0,
    d3 < 10 ∧ d2 < 10 ∧ d1 < 10 ∧ d0 < 10
    ∧ n = 1000 * d3 + 100 * d2 + 10 * d1 + d0
    ∧ pad4 n = [digit d3; digit d2; digit d1; digit d0].
Proof.
  intros Hn. exists (n / 1000), (n / 100 mod 10), (n / 10 mod 10), (n mod 10).
  pose proof (N.div_mod n 10 ltac:(done)) as H0.
  pose proof (N.div_mod (n / 10) 10 ltac:(done)) as H1.
  pose proof (N.div_mod (n / 100) 10 ltac:(done)) as H2.
  rewrite N.Div0.div_div in H1, H2.
  change (10 * 10) with 100 in H1. change (100 * 10) with 1000 in H2.
  pose proof (N.mod_lt n 10 ltac:(done)).
  pose proof (N.mod_lt (n / 10) 10 ltac:(done)).
  pose proof (N.mod_lt (n / 100) 10 ltac:(done)).
  assert (n / 1000 < 10) by (apply N.Div0.div_lt_upper_bound; lia).
  split_and!; try done.
  set (d2 := n / 100 mod 10) in *. set (d1 := n / 10 mod 10) in *.
  set (d0 := n mod 10) in *. set (q1 := n / 10) in *. set (q2 := n / 100) in *.
  set (d3 := n / 1000) in *. clearbody d3 q2 q1 d0 d1 d2. lia.
Qed.

Ltac by_digits :=
  unfold digit; cbn [PyStr.compare];
  repeat match goal with
         | |- context [(?x ?= ?y)%N] => destruct (N.compare_spec x y)
         end;
  simpl; try done; exfalso; lia.

Lemma compare_pad2 (m n : N) :
  m < 100 → n < 100 → PyStr.compare (pad2 m) (pad2 n) = (m ?= n).
Proof.
  intros (a1 & a0 & ? & ? & -> & ->)%pad2_digits (b1 & b0 & ? & ? & -> & ->)%pad2_digits.
  by_digits.
Qed.

Lemma compare_pad4 (m n : N) :
  m < 10000 → n < 10000 → PyStr.compare (pad4 m) (pad4 n) = (m ?= n).
Proof.
  intros (a3 & a2 & a1 & a0 & ? & ? & ? & ? & -> & ->)%pad4_digits
         (b3 & b2 & b1 & b0 & ? & ? & ? & ? & -> & ->)%pad4_digits.
  by_digits.
Qed.

Lemma valid_bounds (d : datetime) :
  valid d = true →
  year d < 10000 ∧ month d < 100 ∧ day d < 100
  ∧ hour d < 100 ∧ minute d < 100 ∧ second d < 100.
Proof.
  unfold valid. rewrite !andb_true_iff, !N.leb_le. lia.
Qed.

(** For readings of the clock, the order of the formatted strings is the
    order of the moments. *)
Lemma strftime_compare (a b : datetime) :
  valid a = true → valid b = true →
  PyStr.compare (strftime a) (strftime b) = chrono a b.
Proof.
  intros (? & ? & ? & ? & ? & ?)%valid_bounds (? & ? & ? & ? & ? & ?)%valid_bounds.
  unfold strftime, chrono.
  repeat first
    [ rewrite compare_pad4 by done
    | rewrite compare_pad2 by done
    | rewrite (compare_app (pad4 _) (pad4 _)) by done
    | rewrite (compare_app (pad2 _) (pad2 _)) by done
    | rewrite (compare_app (py _) (py _)) by done; rewrite compare_refl;
      cbn [then_compare] ].
  done.
Qed.

End clock_order.

(** ** The store *)

Section store.

Implicit Types (t : saved_recipes) (r : recipe) (id k : Z).

Lemma max_of_ge (ks : list Z) k :
  k ∈ ks → ∃ m, max_of ks = Some m ∧ (k ≤ m)%Z.
Proof.
  induction 1 as [k ks|k k' ks _ (m & Hm & Hle)]; simpl.
  - destruct (max_of ks); eexists; split; [done|lia|done|lia].
  - rewrite Hm. eexists; split; [done|lia].
Qed.

Lemma max_of_elem (ks : list Z) (m : Z) : max_of ks = Some m → m ∈ ks.
Proof.
  revert m. induction ks as [|k ks IH]; intros m; simpl; [done|].
  destruct (max_of ks) as [a|]; intros [= <-]; [|by left].
  destruct (Z.max_spec k a) as [[_ ->]|[_ ->]]; [right; by apply IH|by left].
Qed.

Lemma largest_rowid_ge t k :
  is_Some (rows t !! k) → ∃ m, largest_rowid t = Some m ∧ (k ≤ m)%Z.
Proof.
  intros [r Hr]. apply max_of_ge.
  apply list_elem_of_fmap. exists (k, r). split; [done|].
  by apply elem_of_map_to_list.
Qed.

Lemma largest_rowid_elem t (m : Z) : largest_rowid t = Some m → is_Some (rows t !! m).
Proof.
  intros ((k & r) & -> & Hr%elem_of_map_to_list)%max_of_elem%list_elem_of_fmap.
  by exists r.
Qed.

(** What a successful INSERT did: the id is new, larger than the recorded
    sequence and than every id in the table, and the table gained that one
    row. *)
Lemma insert_Some r t id t' :
  Store.insert r t = Some (id, t') →
  (sqlite_sequence t < id)%Z
  ∧ (∀ k, is_Some (rows t !! k) → (k < id)%Z)
  ∧ rows t !! id = None
  ∧ t' = {| rows := <[id := r]> (rows t); sqlite_sequence := id |}.
Proof.
  unfold Store.insert. case_bool_decide as Hfull; [done|]. intros [= <- <-].
  assert (∀ k, is_Some (rows t !! k) →
    (k < Z.max match largest_rowid t with Some k => k + 1 | None => 1 end
               (sqlite_sequence t + 1))%Z) as Hlt.
  { intros k (m & -> & Hle)%largest_rowid_ge. lia. }
  split_and!; [lia|done| |done].
  apply eq_None_not_Some. intros Hid%Hlt. lia.
Qed.

(** An INSERT is refused only when the largest rowid has been used. *)
Lemma insert_has_room r t : has_room t ↔ is_Some (Store.insert r t).
Proof.
  unfold has_room, Store.insert. split.
  - intros [Hseq Hrows]. case_bool_decide as Hfull; [|by eexists].
    destruct Hfull as [?|Hv]; [done|].
    destruct (largest_rowid t) as [m|] eqn:Hm; [|done].
    apply largest_rowid_elem, Hrows in Hm. lia.
  - case_bool_decide as Hfull; [by intros [? [=]]|]. intros _.
    split; [tauto|]. intros k (m & Hm & Hle)%largest_rowid_ge.
    rewrite Hm in Hfull. lia.
Qed.

(** The list query returns every row of the table, each once. *)
Lemma select_all_Permutation t :
  select_all t ≡ₚ summary_of <$> map_to_list (rows t).
Proof. unfold select_all. by rewrite merge_sort_Permutation. Qed.

Lemma select_all_elem t id r :
  get id t = Some r → summary_of (id, r) ∈ select_all t.
Proof.
  intros Hr. rewrite select_all_Permutation.
  apply list_elem_of_fmap. exists (id, r). split; [done|].
  by apply elem_of_map_to_list.
Qed.

(** C3. A table with room accepts the INSERT, under an id it did not hold
    before.  Reading that id back gives the row that was inserted, all seven
    fields: the whole row ([get]), the four columns of the detail query and
    the five columns (besides the id) of the list query.  A [video_link] that
    was [None] reads back as [None], not as the empty string. *)
Theorem insert_then_get r t :
  has_room t →
  ∃ id t',
    Store.insert r t = Some (id, t')
    ∧ get id t = None
    ∧ get id t' = Some r
    ∧ select_details id t' =
        Some (recipe_name r, recipe_name_telugu r, instructions r, video_link r)
    ∧ {| s_id := id; s_recipe_name := recipe_name r;
         s_recipe_name_telugu := recipe_name_telugu r; s_region := region r;
         s_ingredients := ingredients r; s_created_date := created_date r |}
      ∈ select_all t'
    ∧ (video_link r = None →
       snd <$> select_details id t' = Some None
       ∧ snd <$> select_details id t' ≠ Some (Some [])).
Proof.
  intros [[id t'] Hins]%(insert_has_room r). exists id, t'.
  destruct (insert_Some _ _ _ _ Hins) as (_ & _ & Hnew & ->).
  assert (get id {| rows := <[id:=r]> (rows t); sqlite_sequence := id |} = Some r)
    as Hget by apply lookup_insert_eq.
  split_and!; try done.
  - unfold select_details. by rewrite Hget.
  - by apply (select_all_elem _ id r).
  - intros Hv. unfold select_details. rewrite Hget. simpl. by rewrite Hv.
Qed.

Lemma insert_then_get_witness :
  ∃ id t',
    Store.insert
      {| recipe_name := py "Turmeric Rice"; recipe_name_telugu := Some (py "Pasupu Annam");
         region := py "South Indian"; ingredients := py "basmati rice (1 cup)";
         instructions := py "# Turmeric Rice"; video_link := None;
         created_date := strftime noon |} empty_table = Some (id, t')
    ∧ get id t' =
        Some {| recipe_name := py "Turmeric Rice";
                recipe_name_telugu := Some (py "Pasupu Annam");
                region := py "South Indian"; ingredients := py "basmati rice (1 cup)";
                instructions := py "# Turmeric Rice"; video_link := None;
                created_date := strftime noon |}.
Proof.
  edestruct (insert_then_get
    {| recipe_name := py "Turmeric Rice"; recipe_name_telugu := Some (py "Pasupu Annam");
       region := py "South Indian"; ingredients := py "basmati rice (1 cup)";
       instructions := py "# Turmeric Rice"; video_link := None;
       created_date := strftime noon |} empty_table)
    as (id & t' & Hins & _ & Hget & _).
  - split; [done|]. intros k [x Hx]. simpl in Hx. by rewrite lookup_empty in Hx.
  - exists id, t'. by split.
Defined.

(** The Save action is this INSERT, with the clock reading as
    [created_date]; a refused INSERT is reported on the page. *)
Lemma save_recipe_run (svc : services) (name_en name_te reg : pystr)
    (identified : list pystr) (result : pystr) (video : option pystr) (w : world) :
  let r := {| recipe_name := name_en; recipe_name_telugu := Some name_te;
              region := reg; ingredients := join (py ", ") identified;
              instructions := result; video_link := video;
              created_date := strftime (datetime_now svc (page w)) |} in
  save_recipe svc name_en name_te reg identified result video w =
    match Store.insert r (conn w) with
    | Some (_, t') =>
        (Ok tt, {| conn := t';
                   page := page w ++ [sql_commit;
                                      st_success (py "Recipe saved successfully!");
                                      st_balloons];
                   widgets := widgets w |})
    | None =>
        (Ok tt, {| conn := conn w;
                   page := page w ++ [st_error (py "Error saving recipe: "
                                                ++ py "database or disk is full")];
                   widgets := widgets w |})
    end.
Proof.
  unfold save_recipe, try_except, now, execute_insert.
  unfold mbind, app_bind, mret, app_ret, bind, emit, ret. simpl.
  destruct (Store.insert _ (conn w)) as [[id t']|]; simpl; [|done].
  by rewrite <-!app_assoc.
Qed.

Lemma delete_get id t : get id (Store.delete id t) = None.
Proof. apply lookup_delete_eq. Qed.

Lemma delete_get_ne id id' t : id' ≠ id → get id' (Store.delete id t) = get id' t.
Proof. intros Hne. by apply lookup_delete_ne. Qed.

Lemma delete_absent id t : get id t = None → Store.delete id t = t.
Proof.
  intros Hid. destruct t as [m n]. unfold Store.delete. simpl in *.
  by rewrite delete_id.
Qed.

Lemma delete_recipe_run id (w : world) :
  delete_recipe id w =
    (Ok tt, {| conn := Store.delete id (conn w);
               page := page w ++ [sql_commit; st_success (py "Recipe deleted!");
                                  st_balloons];
               widgets := widgets w |}).
Proof.
  unfold delete_recipe, execute_delete.
  unfold mbind, app_bind, bind, emit. simpl. by rewrite <-!app_assoc.
Qed.

(** The detail view of an id the table does not hold is the error
    message. *)
Lemma view_recipe_details_absent id (w : world) :
  get id (conn w) = None →
  view_recipe_details id w =
    (Ok tt, {| conn := conn w; page := page w ++ [st_error (py "Recipe not found!")];
               widgets := widgets w |}).
Proof.
  intros Hid. unfold view_recipe_details, query, select_details.
  unfold mbind, app_bind, bind. simpl. by rewrite Hid.
Qed.

(** C5. [delete_recipe] never raises, whether the table holds the id or
    not.  After it the table has no row with that id, and the detail view of
    that id shows "Recipe not found!".  When the table held no row with the
    id, the table after the DELETE is the table before it. *)
Theorem delete_then_not_found id (w : world) :
  let deleted := delete_recipe id w in
  deleted.1 = Ok tt
  ∧ get id (conn deleted.2) = None
  ∧ view_recipe_details id deleted.2 =
      (Ok tt, {| conn := conn deleted.2;
                 page := page deleted.2 ++ [st_error (py "Recipe not found!")];
                 widgets := widgets deleted.2 |})
  ∧ (get id (conn w) = None → conn deleted.2 = conn w).
Proof.
  intros deleted. unfold deleted. rewrite delete_recipe_run. cbn [fst snd].
  split_and!.
  - done.
  - apply delete_get.
  - apply view_recipe_details_absent, delete_get.
  - apply delete_absent.
Qed.

(** What INSERT keeps. *)
Lemma insert_keeps_rows r t id t' : Store.insert r t = Some (id, t') → keeps_rows t t'.
Proof.
  intros (_ & _ & Hnew & ->)%insert_Some k x Hk. unfold get in *. simpl.
  rewrite lookup_insert_ne; [done|]. intros ->. congruence.
Qed.

End store.

(** ** The list of saved recipes *)

Section listing.

Implicit Types (t : saved_recipes) (x y : Z * recipe).

#[global] Instance newer_first_total : Total newer_first.
Proof. intros x y. unfold newer_first. apply pystr_le_total. Qed.

#[global] Instance newer_first_trans : Transitive newer_first.
Proof. intros x y z Hxy Hyz. unfold newer_first in *. by etrans. Qed.

(** A sorted list without repetition is strictly sorted, once different
    elements cannot be equivalent for the order. *)
Lemma StronglySorted_strict {A} (R R' : relation A) (l : list A) :
  (∀ a b, a ∈ l → b ∈ l → a ≠ b → R a b → R' a b) →
  NoDup l → StronglySorted R l → StronglySorted R' l.
Proof.
  intros Hstrict Hnd Hs. induction Hs as [|a l Hs IH Hall]; [constructor|].
  apply NoDup_cons in Hnd as [Ha Hnd]. constructor.
  - apply IH; [|done]. intros b c Hb Hc. apply Hstrict; by right.
  - apply Forall_forall. intros b Hb. apply Hstrict; [by left|by right| |].
    + intros ->. done.
    + rewrite Forall_forall in Hall. by apply Hall.
Qed.

(** The rows of a table written out with its inserts. *)
Ltac rows_of H :=
  first [ apply lookup_insert_Some in H as [[<- <-]|[? H]]; [|rows_of H]
        | apply lookup_singleton_Some in H as [<- <-]
        | by rewrite lookup_empty in H ].

(** C4. When no two rows of the table have the same [created_date], the
    list query returns every row, each once (as many results as the table
    has rows), and each result has a strictly larger [created_date] than
    all the results after it. *)
Theorem select_all_newest_first t :
  (∀ i j ri rj,
     get i t = Some ri → get j t = Some rj →
     created_date ri = created_date rj → i = j) →
  select_all t ≡ₚ summary_of <$> map_to_list (rows t)
  ∧ length (select_all t) = Store.count t
  ∧ (∀ id r, get id t = Some r → summary_of (id, r) ∈ select_all t)
  ∧ StronglySorted (λ a b, PyStr.lt (s_created_date b) (s_created_date a)) (select_all t).
Proof.
  intros Hdistinct. split_and!.
  - apply select_all_Permutation.
  - rewrite select_all_Permutation, length_fmap. apply length_map_to_list.
  - intros id r. apply select_all_elem.
  - unfold select_all.
    apply (StronglySorted_fmap _
             (λ x y, PyStr.lt (created_date y.2) (created_date x.2))); [done|].
    apply (StronglySorted_strict newer_first).
    + intros [i ri] [j rj].
      rewrite !merge_sort_Permutation, !elem_of_map_to_list. simpl.
      intros Hi Hj Hne [Hlt|Heq]%le_lt_or_eq; [done|].
      destruct Hne. assert (j = i) as -> by eauto using eq_sym.
      f_equal. unfold get in *. congruence.
    + rewrite merge_sort_Permutation. apply NoDup_map_to_list.
    + apply Sorted_StronglySorted; [apply _|]. apply Sorted_merge_sort. apply _.
Qed.

Lemma select_all_newest_first_witness :
  length (select_all three_rows) = Store.count three_rows
  ∧ StronglySorted (λ a b, PyStr.lt (s_created_date b) (s_created_date a))
      (select_all three_rows).
Proof.
  destruct (select_all_newest_first three_rows) as (_ & Hlen & _ & Hsorted); [|done].
  unfold get, three_rows. simpl. intros i j ri rj Hi Hj.
  rows_of Hi; rows_of Hj; try done; vm_compute; congruence.
Defined.

Example select_all_three_rows : s_id <$> select_all three_rows = [2; 3; 1]%Z.
Proof. vm_compute. reflexivity. Qed.

End listing.

(** ** Ids and dates over the lifetime of the store *)

Section lifetime.

Implicit Types (acts : list action) (t : saved_recipes).

Lemma replay_ids_above acts t :
  Forall (λ id, (sqlite_sequence t < id)%Z) (replay acts t).1.*1.
Proof.
  revert t. induction acts as [|[r reading|id] acts IH]; intros t; simpl.
  - constructor.
  - destruct (Store.insert _ t) as [[id t']|] eqn:Hins; [|apply IH].
    apply insert_Some in Hins as (Hseq & _ & _ & ->). simpl. constructor; [done|].
    eapply Forall_impl; [apply IH|]. simpl. lia.
  - apply (IH (Store.delete id t)).
Qed.

Lemma replay_ids_sorted acts t : StronglySorted Z.lt (replay acts t).1.*1.
Proof.
  revert t. induction acts as [|[r reading|id] acts IH]; intros t; simpl.
  - constructor.
  - destruct (Store.insert _ t) as [[id t']|] eqn:Hins; [|apply IH].
    apply insert_Some in Hins as (_ & _ & _ & ->). simpl. constructor; [apply IH|].
    apply (replay_ids_above acts {| rows := _; sqlite_sequence := id |}).
  - apply IH.
Qed.

Lemma replay_dates acts t (d : pystr) :
  d ∈ (replay acts t).1.*2 → ∃ reading, reading ∈ readings acts ∧ d = strftime reading.
Proof.
  revert t. induction acts as [|[r reading|id] acts IH]; intros t; simpl.
  - by intros ?%elem_of_nil.
  - destruct (Store.insert _ t) as [[id t']|]; simpl.
    + intros [->|(x & Hx & ->)%IH]%elem_of_cons.
      * exists reading. split; [by left|done].
      * exists x. split; [by right|done].
    + intros (x & Hx & ->)%IH. exists x. split; [by right|done].
  - apply IH.
Qed.

Lemma replay_dates_sorted acts t :
  Forall (λ d, valid d = true) (readings acts) →
  StronglySorted not_later (readings acts) →
  StronglySorted PyStr.le (replay acts t).1.*2.
Proof.
  revert t. induction acts as [|[r reading|id] acts IH]; intros t; simpl.
  - constructor.
  - intros [Hv Hvs]%Forall_cons [Hs Hall]%StronglySorted_inv.
    destruct (Store.insert _ t) as [[id t']|]; simpl; [|by apply IH].
    constructor; [by apply IH|].
    apply Forall_forall. intros d (x & Hx & ->)%replay_dates.
    rewrite Forall_forall in Hall, Hvs.
    unfold PyStr.le. rewrite strftime_compare by auto. by apply Hall.
  - intros. by apply IH.
Qed.

(** Saves and Deletes keep the rows at or below the recorded sequence,
    so an id, once assigned, stays below every id assigned later even
    after its row is deleted. *)
Lemma replay_well_sequenced acts t :
  well_sequenced t → well_sequenced (replay acts t).2.
Proof.
  revert t. induction acts as [|[r reading|id] acts IH]; intros t Ht; simpl; [done| |].
  - destruct (Store.insert _ t) as [[id t']|] eqn:Hins; [|by apply IH].
    simpl. apply IH. apply insert_Some in Hins as (Hseq & _ & _ & ->).
    intros k. simpl. rewrite lookup_insert_is_Some. intros [->|[_ Hk%Ht]]; lia.
  - apply IH. intros k. unfold Store.delete. simpl.
    rewrite lookup_delete_is_Some. intros [_ Hk]. by apply Ht.
Qed.

Lemma empty_table_well_sequenced : well_sequenced empty_table.
Proof. intros k [r Hr]. simpl in Hr. by rewrite lookup_empty in Hr. Qed.

Lemma StronglySorted_lt_NoDup (l : list Z) : StronglySorted Z.lt l → NoDup l.
Proof.
  induction 1 as [|x l _ IH Hall]; constructor; [|done].
  rewrite Forall_forall in Hall. intros Hx%Hall. lia.
Qed.

(** C9, as amended.  Over any sequence of Saves and Deletes, from any
    table, the ids assigned by the INSERTs grow strictly (each is larger
    than every id assigned before it, and than the recorded sequence of the
    starting table), so no id is assigned twice.  The [created_date] of
    each row is the clock reading of its Save; the dates are non-decreasing
    when the readings are. *)
Theorem assigned_ids_increase acts t :
  let log := (replay acts t).1 in
  StronglySorted Z.lt log.*1
  ∧ NoDup log.*1
  ∧ Forall (λ id, (sqlite_sequence t < id)%Z) log.*1
  ∧ (∀ d, d ∈ log.*2 → ∃ reading, reading ∈ readings acts ∧ d = strftime reading)
  ∧ (Forall (λ d, valid d = true) (readings acts) →
     StronglySorted not_later (readings acts) →
     StronglySorted PyStr.le log.*2).
Proof.
  simpl. split_and!.
  - apply replay_ids_sorted.
  - apply StronglySorted_lt_NoDup, replay_ids_sorted.
  - apply replay_ids_above.
  - intros d. apply replay_dates.
  - apply replay_dates_sorted.
Qed.

End lifetime.

Example replay_save_delete_save :
  (replay [Save (at_time 0) morning; Delete 1; Save (at_time 0) noon] empty_table).1 =
  [(1%Z, py "2024-03-09 09:30:00"); (2%Z, py "2024-03-09 12:00:00")].
Proof. vm_compute. reflexivity. Qed.

(** C9 as stated fails: the dates follow the wall clock.  Two recipes are
    saved one after the other; the clock was set back in between, and the
    second row, with the larger id, has the smaller [created_date]. *)
Lemma created_date_follows_clock :
  let save svc w :=
    (save_recipe svc (py "Turmeric Rice") (py "Pasupu Annam") (py "South Indian")
       [py "basmati rice (1 cup)"] (py "# Turmeric Rice") None w).2 in
  let t := conn (save clock_set_back (save online (start None))) in
  created_date <$> get 1 t = Some (py "2024-03-09 12:00:00")
  ∧ created_date <$> get 2 t = Some (py "2024-03-09 09:30:00")
  ∧ PyStr.lt (py "2024-03-09 09:30:00") (py "2024-03-09 12:00:00").
Proof. vm_compute. split_and!; reflexivity. Qed.

(** ** What a page run does to the rows *)

Section frames.

Variable R : relation saved_recipes.
Context `{!PreOrder R}.

Lemma moves_ret {A} (a : A) : moves_by R (mret a).
Proof. intros w. reflexivity. Qed.

Lemma moves_skip : moves_by R skip.
Proof. intros w. reflexivity. Qed.

Lemma moves_raise {A} (e : raised) : moves_by R (raise e : app A).
Proof. intros w. reflexivity. Qed.

Lemma moves_emit (e : event) : moves_by R (emit e).
Proof. intros w. reflexivity. Qed.

Lemma moves_register (x : widget) : moves_by R (register x).
Proof. intros w. unfold register. destruct (duplicate x (widgets w)); reflexivity. Qed.

Lemma moves_lift {A} (r : result exn A) : moves_by R (lift r).
Proof. intros w. destruct r; reflexivity. Qed.

Lemma moves_query {A} (f : saved_recipes → A) : moves_by R (query f).
Proof. intros w. reflexivity. Qed.

Lemma moves_now (svc : services) : moves_by R (now svc).
Proof. intros w. reflexivity. Qed.

Lemma moves_bind {A B} (c : app A) (k : A → app B) :
  moves_by R c → (∀ a, moves_by R (k a)) → moves_by R (c ≫= k).
Proof.
  intros Hc Hk w. unfold mbind, app_bind, bind.
  specialize (Hc w). destruct (c w) as [[a|e] w']; simpl in *; [|done].
  etrans; [done|]. apply Hk.
Qed.

Lemma moves_request {A} (e : event) (answer : list event → result exn A) :
  moves_by R (request e answer).
Proof.
  intros w. unfold request.
  apply (moves_bind (emit e) (λ _, lift (answer (page w))));
    auto using moves_emit, moves_lift.
Qed.

Lemma moves_try_except {A} (handles : exn → bool) (body : app A) (handler : exn → app A) :
  moves_by R body → (∀ e, moves_by R (handler e)) → moves_by R (try_except handles body handler).
Proof.
  intros Hb Hh w. unfold try_except.
  specialize (Hb w). destruct (body w) as [[a|[e|]] w']; simpl in *; try done.
  destruct (handles e); [|done]. etrans; [done|]. apply Hh.
Qed.

Lemma moves_for_each {A} (l : list A) (body : A → app unit) :
  (∀ x, moves_by R (body x)) → moves_by R (for_each l body).
Proof.
  intros Hb. induction l as [|x l IH]; simpl; [apply moves_ret|].
  by apply (moves_bind (body x) (λ _, for_each l body)).
Qed.

(** A button hands its click to what follows, or stops the run. *)
Lemma moves_button (inp : inputs) (label : pystr) (key : option pystr)
    {B} (k : bool → app B) :
  moves_by R (k (clicked inp {| w_type := button; w_label := label; w_key := key |})) →
  moves_by R (st_button inp label key ≫= k).
Proof.
  intros Hk w. unfold st_button, register, mbind, app_bind, bind.
  destruct (duplicate _ (widgets w)); simpl; [reflexivity|].
  apply (Hk (Build_world _ _ _)).
Qed.

End frames.

(** One step of the frame argument: peel the outermost construct. *)
Ltac frame_step :=
  lazymatch goal with
  | |- moves_by ?R _ =>
      first
        [ apply (moves_ret R) | apply (moves_skip R) | apply (moves_raise R)
        | apply (moves_emit R) | apply (moves_register R) | apply (moves_lift R)
        | apply (moves_query R) | apply (moves_now R) | apply (moves_request R)
        | apply (moves_for_each R); intros ?
        | apply (moves_try_except R); [|intros ?]
        | apply (moves_bind R); [|intros ?]
        | match goal with
          | |- moves_by _ (match ?x with _ => _ end) => destruct x
          end ]
  end.

Section page_frames.

Variable svc : services.
Variable inp : inputs.

#[local] Instance keeps_rows_preorder : PreOrder keeps_rows.
Proof. split; [by intros t id r|]. intros t1 t2 t3 H12 H23 id r Hr. eauto. Qed.

#[local] Instance keeps_unclicked_preorder : PreOrder (keeps_unclicked inp).
Proof. split; [by intros t id r|]. intros t1 t2 t3 H12 H23 id r Hr Hc. eauto. Qed.

Lemma execute_insert_keeps_rows (r : recipe) : moves_by keeps_rows (execute_insert r).
Proof.
  intros w. unfold execute_insert.
  destruct (Store.insert r (conn w)) as [[id t']|] eqn:Hins; simpl; [|reflexivity].
  by eapply insert_keeps_rows.
Qed.

(** The "Generate Recipe" page never removes or changes a saved row. *)
Lemma generate_recipe_keeps_rows : moves_by keeps_rows (generate_recipe svc inp).
Proof.
  unfold generate_recipe, generate_and_show, save_recipe, extract_recipe_names, index,
    safe_generate_content, search_telugu_recipe_video, identify_ingredients_from_image,
    st_file_uploader, st_selectbox, st_slider, st_button.
  repeat first [ apply execute_insert_keeps_rows | frame_step ].
Qed.

(** The detail view reads. *)
Lemma view_recipe_details_conn (id : Z) (w : world) :
  conn (view_recipe_details id w).2 = conn w.
Proof.
  assert (moves_by eq (view_recipe_details id)) as H; [|by rewrite <-H].
  unfold view_recipe_details. repeat frame_step.
Qed.

Lemma delete_recipe_of_clicked (id : Z) :
  delete_clicked inp id = true → moves_by (keeps_unclicked inp) (delete_recipe id).
Proof.
  intros Hid w. rewrite delete_recipe_run. simpl. intros id' r Hr Hid'.
  rewrite delete_get_ne; [done|]. intros ->. congruence.
Qed.

(** The "Saved Recipes" page removes a row only through its own Delete
    button: every row whose button was not clicked is still there, with
    the same fields, when the run ends. *)
Lemma view_saved_recipes_keeps_unclicked :
  moves_by (keeps_unclicked inp) (view_saved_recipes inp).
Proof.
  unfold view_saved_recipes, view_recipe_details, st_rerun.
  repeat first
    [ apply (moves_button (keeps_unclicked inp)); cbv beta
    | match goal with
      | |- moves_by _ (if clicked ?i ?x then _ else _) => destruct (clicked i x) eqn:?
      end
    | apply delete_recipe_of_clicked; assumption
    | frame_step ].
Qed.

End page_frames.

(** A row that is there when a page run starts is there, unchanged, when it
    ends, unless the page is "Saved Recipes" and the Delete button of that
    row was clicked. *)
Lemma pages_keep_rows (svc : services) (inp : inputs) (w : world) (id : Z) (r : recipe) :
  get id (conn w) = Some r →
  get id (conn (generate_recipe svc inp w).2) = Some r
  ∧ (delete_clicked inp id = false →
     get id (conn (view_saved_recipes inp w).2) = Some r).
Proof.
  intros Hr. split.
  - by apply generate_recipe_keeps_rows.
  - intros Hc. by eapply view_saved_recipes_keeps_unclicked.
Qed.

(** C10. A DELETE touches the row with the given id and nothing else: every
    other id reads back what it read before, the table shrinks by one row
    when it held the id and not at all otherwise, and the recorded sequence
    stays.  Nothing else removes or changes a row: INSERT and
    CREATE TABLE IF NOT EXISTS keep every row of the table they find (the
    SELECTs return no table); a run of the "Generate Recipe" page keeps
    every row, and a run of the "Saved Recipes" page keeps every row whose
    Delete button was not clicked. *)
Theorem delete_touches_one_row (id : Z) (t : saved_recipes) :
  (∀ id', id' ≠ id → get id' (Store.delete id t) = get id' t)
  ∧ Store.count (Store.delete id t) =
      match get id t with
      | Some _ => pred (Store.count t)
      | None => Store.count t
      end
  ∧ sqlite_sequence (Store.delete id t) = sqlite_sequence t
  ∧ (∀ r id' t', Store.insert r t = Some (id', t') → keeps_rows t t')
  ∧ keeps_rows t (create_recipes_table (Some t))
  ∧ (∀ svc inp w, conn w = t → keeps_rows t (conn (generate_recipe svc inp w).2))
  ∧ (∀ inp w, conn w = t → keeps_unclicked inp t (conn (view_saved_recipes inp w).2)).
Proof.
  split_and!.
  - intros id'. apply delete_get_ne.
  - unfold Store.count, Store.delete, get. simpl. rewrite map_size_delete.
    by destruct (rows t !! id).
  - done.
  - intros r id' t'. apply insert_keeps_rows.
  - by intros k x.
  - intros svc inp w <-. apply generate_recipe_keeps_rows.
  - intros inp w <-. apply view_saved_recipes_keeps_unclicked.
Qed.

(** * Further properties of the code *)

Import Script Notions Cases.

(** ** The text generator *)

(** X1. [safe_generate_content] sends the prompt to the text model once and
    never raises: it returns the text of the answer, or, when the call
    raises any exception, shows the error and returns [None].  The database
    and the widgets are left alone. *)
Theorem safe_generate_content_safe (svc : services) (prompt : pystr) (w : world) :
  let run := safe_generate_content svc prompt w in
  conn run.2 = conn w ∧ widgets run.2 = widgets w
  ∧ match model_generate_content svc (page w) prompt with
    | Ok text =>
        run.1 = Ok (Some text) ∧ page run.2 = page w ++ [model_request prompt]
    | Raise e =>
        run.1 = Ok None
        ∧ page run.2 =
            page w ++ [model_request prompt;
                       st_error (py "Error generating content: " ++ exn_str e)]
    end.
Proof.
  unfold safe_generate_content, try_except, request.
  unfold mbind, app_bind, mret, app_ret, bind, lift, emit, ret, raise. simpl.
  destruct (model_generate_content svc (page w) prompt) as [text|e]; simpl; [done|].
  by rewrite <-app_assoc.
Qed.

(** ** The ingredient list *)

Section ingredient_list.

Implicit Types (s item : pystr) (items : list pystr) (c sep : char).

Lemma split_fields_no_sep sep s item : item ∈ split sep s → sep ∉ item.
Proof.
  revert item. induction s as [|c s IH]; intros item; simpl.
  - intros ->%list_elem_of_singleton. apply not_elem_of_nil.
  - destruct (N.eqb_spec c sep) as [->|Hne].
    + intros [->|Hin]%elem_of_cons; [apply not_elem_of_nil|by apply IH].
    + destruct (split_cons sep s) as (x & xs & E). rewrite E in *.
      intros [->|Hin]%elem_of_cons.
      * intros [?|Hx]%elem_of_cons; [done|]. revert Hx. apply IH. by left.
      * apply IH. by right.
Qed.

Lemma lstrip_head s c : head (lstrip s) = Some c → is_space c = false.
Proof.
  induction s as [|x s IH]; simpl; [done|].
  destruct (is_space x) eqn:E; [done|]. simpl. by intros [= <-].
Qed.

Lemma rstrip_last s c : last (rstrip s) = Some c → is_space c = false.
Proof.
  induction s as [|x s IH]; simpl; [done|].
  destruct (rstrip s) as [|y r] eqn:E.
  - destruct (is_space x) eqn:Ex; [done|]. simpl. by intros [= <-].
  - rewrite last_cons_cons. done.
Qed.

Lemma rstrip_head s c : head (rstrip s) = Some c → head s = Some c.
Proof.
  destruct s as [|x s]; simpl; [done|].
  destruct (rstrip s); [|done]. by destruct (is_space x).
Qed.

Lemma strip_head s c : head (strip s) = Some c → is_space c = false.
Proof. intros ?%rstrip_head. by eapply lstrip_head. Qed.

Lemma strip_last s c : last (strip s) = Some c → is_space c = false.
Proof. apply rstrip_last. Qed.

Lemma lstrip_fixed s :
  (∀ c, head s = Some c → is_space c = false) → lstrip s = s.
Proof.
  destruct s as [|x s]; [done|]. intros H. simpl. by rewrite (H x).
Qed.

Lemma strip_idemp s : strip (strip s) = strip s.
Proof.
  unfold strip at 1. rewrite (lstrip_fixed (strip s)) by apply strip_head.
  unfold strip. rewrite !rstrip_lstrip.
  assert (∀ t, rstrip (rstrip t) = rstrip t) as Hr; [|by rewrite Hr].
  induction t as [|x t IH]; [done|]. cbn [rstrip].
  destruct (rstrip t) as [|y r] eqn:E.
  - destruct (is_space x) eqn:Ex; simpl; by rewrite ?Ex.
  - cbn [rstrip]. cbn [rstrip] in IH. by rewrite IH.
Qed.

Lemma strip_split_clean s : Forall clean (strip <$> split comma s).
Proof.
  apply Forall_fmap, Forall_forall. intros item Hin. split.
  - intros Hc%rstrip_elem%lstrip_elem. by apply split_fields_no_sep in Hin.
  - apply strip_idemp.
Qed.

Lemma strip_split_space s :
  strip <$> split comma (32 :: s) = strip <$> split comma s.
Proof.
  rewrite <-(strip_split_strip comma (32 :: s)) by done.
  rewrite <-(strip_split_strip comma s) by done. done.
Qed.

(** Joining clean items with [", "] and splitting the text again gives
    the items back. *)
Lemma split_join_clean items :
  items ≠ [] → Forall clean items →
  strip <$> split comma (join (py ", ") items) = items.
Proof.
  intros Hne Hall. induction Hall as [|x rest [Hx Hs] Hall IH]; [done|].
  destruct rest as [|y rest].
  - simpl. by rewrite split_no_sep, fmap_cons, Hs.
  - change (join (py ", ") (x :: y :: rest))
      with (x ++ comma :: 32 :: join (py ", ") (y :: rest)).
    rewrite split_line, fmap_cons, Hs, strip_split_space by done.
    f_equal. by apply IH.
Qed.

End ingredient_list.

Section identified.

Variable svc : services.

Lemma identify_ingredients_from_image_value (file : bytes) (w : world) :
  (identify_ingredients_from_image svc file w).1 =
    match vision_answer svc file w with
    | Ok text => Ok (strip <$> split comma (strip text))
    | Raise _ => Ok []
    end.
Proof.
  unfold identify_ingredients_from_image, vision_answer, try_except, request.
  unfold mbind, app_bind, mret, app_ret, bind, lift, emit, ret, raise.
  destruct (image_open svc file) as [[]|e]; simpl; [|done].
  by destruct (vision_generate_content svc (page w) vision_prompt file).
Qed.

(** X2. Every ingredient the Vision Identifier returns is free of commas
    and has no whitespace at either end (it may be empty). *)
Theorem identified_ingredients_trimmed (file : bytes) (w : world) :
  match (identify_ingredients_from_image svc file w).1 with
  | Ok items =>
      Forall (λ item,
        (comma ∉ item)
        ∧ (∀ c, head item = Some c → is_space c = false)
        ∧ (∀ c, last item = Some c → is_space c = false)) items
  | Raise _ => False
  end.
Proof.
  rewrite identify_ingredients_from_image_value.
  destruct (vision_answer svc file w) as [text|e]; [|constructor].
  apply Forall_fmap, Forall_forall. intros item Hin. simpl. split_and!.
  - intros Hc%rstrip_elem%lstrip_elem. by apply split_fields_no_sep in Hin.
  - apply strip_head.
  - apply strip_last.
Qed.

(** X3. The ingredient text that goes into the prompt and into the
    [ingredients] column, [', '.join(identified_ingredients)], loses
    nothing: split on commas and stripped again, it gives back exactly the
    list the Vision Identifier returned (an empty list, returned after an
    error, apart). *)
Theorem identified_ingredients_join_split (file : bytes) (w : world) :
  match (identify_ingredients_from_image svc file w).1 with
  | Ok items =>
      items = [] ∨ strip <$> split comma (join (py ", ") items) = items
  | Raise _ => False
  end.
Proof.
  rewrite identify_ingredients_from_image_value.
  destruct (vision_answer svc file w) as [text|e]; [|by left].
  right. apply split_join_clean; [|apply strip_split_clean].
  destruct (split_cons comma (strip text)) as (x & xs & ->). done.
Qed.

End identified.

Example identified_ingredients_online :
  (identify_ingredients_from_image online [Byte.xff; Byte.xd8] (start None)).1 =
  Ok [py "basmati rice (1 cup)"; py "turmeric (1 tsp)"].
Proof. reflexivity. Qed.

(** ** Dates as text *)

Section dates_as_text.

Lemma chrono_eq (a b : datetime) : chrono a b = Eq → a = b.
Proof.
  destruct a as [y mo d h mi s], b as [y' mo' d' h' mi' s']. unfold chrono. simpl.
  repeat match goal with
         | |- context [(?x ?= ?y)%N] =>
             destruct (N.compare_spec x y); simpl; try done
         end.
  intros _. congruence.
Qed.

(** X4. For readings of the clock with a four-digit year, the text stored
    in [created_date] has 19 characters, two readings give the same text
    only when they are the same second, and the order of the texts (the
    order [ORDER BY created_date] uses) is the order of the moments. *)
Theorem created_date_text_order (a b : datetime) :
  valid a = true → valid b = true →
  length (strftime a) = 19%nat
  ∧ PyStr.compare (strftime a) (strftime b) = chrono a b
  ∧ (strftime a = strftime b → a = b).
Proof.
  intros Ha Hb. split_and!; [done|by apply strftime_compare|].
  intros Heq. apply chrono_eq. rewrite <-strftime_compare, Heq by done.
  apply compare_refl.
Qed.

Lemma created_date_text_order_witness :
  PyStr.compare (strftime morning) (strftime noon) = Lt.
Proof.
  destruct (created_date_text_order morning noon) as (_ & -> & _);
    reflexivity.
Defined.

End dates_as_text.

(** ** The prompt of the Recipe Generator *)

Section prompt.

Implicit Types (s t u sep : pystr) (items : list pystr).

Lemma contains_refl s : contains s s.
Proof. exists [], []. by rewrite app_nil_r. Qed.

Lemma contains_app_l s t u : contains s t → contains s (t ++ u).
Proof.
  intros (a & b & ->). exists a, (b ++ u). by rewrite <-!app_assoc.
Qed.

Lemma contains_app_r s t u : contains s u → contains s (t ++ u).
Proof.
  intros (a & b & ->). exists (t ++ a), b. by rewrite <-!app_assoc.
Qed.

Lemma contains_trans s t u : contains s t → contains t u → contains s u.
Proof.
  intros (a & b & ->) (a' & b' & ->). exists (a' ++ a), (b ++ b').
  by rewrite <-!app_assoc.
Qed.

Lemma contains_join sep items s : s ∈ items → contains s (join sep items).
Proof.
  induction items as [|x rest IH]; [by intros ?%elem_of_nil|].
  intros Hin. destruct rest as [|y rest].
  - apply list_elem_of_singleton in Hin as ->. apply contains_refl.
  - change (join sep (x :: y :: rest)) with (x ++ sep ++ join sep (y :: rest)).
    apply elem_of_cons in Hin as [->|Hin].
    + apply contains_app_l, contains_refl.
    + by apply contains_app_r, contains_app_r, IH.
Qed.

(** X5. The prompt sent to the text model carries the five parameters as
    they are: the region and the whole ingredient list (so each ingredient)
    in the opening sentence, then the lines with the region, the spice level
    out of 5, the type of dish and the time limit in minutes.  On the
    "Region:" line the wildcard "Any" is replaced by "Indian"; the type of
    dish is printed as selected, "Any" included. *)
Theorem recipe_prompt_carries_parameters (region meal_type : pystr)
    (identified_ingredients : list pystr) (spice_level cooking_time : N) :
  let prompt :=
    recipe_prompt region identified_ingredients spice_level meal_type cooking_time in
  contains (py "Create a detailed " ++ region
            ++ py " Indian recipe using these ingredients: "
            ++ join (py ", ") identified_ingredients ++ py ".") prompt
  ∧ (∀ ingredient, ingredient ∈ identified_ingredients → contains ingredient prompt)
  ∧ contains (py "Region: " ++ (if decide (region = py "Any") then py "Indian" else region))
      prompt
  ∧ contains (py "Spice Level: " ++ str_of_N spice_level ++ py "/5") prompt
  ∧ contains (py "Type of Dish: " ++ meal_type) prompt
  ∧ contains (py "Maximum cooking time: " ++ str_of_N cooking_time ++ py " minutes") prompt.
Proof.
  intros prompt.
  assert (∀ s line, contains s line →
            line ∈ ([py "";
                     py "            Create a detailed " ++ region
                       ++ py " Indian recipe using these ingredients: "
                       ++ join (py ", ") identified_ingredients ++ py ".";
                     py "            ";
                     py "            Region: "
                       ++ (if bool_decide (region ≠ py "Any") then region else py "Indian");
                     py "            Spice Level: " ++ str_of_N spice_level ++ py "/5";
                     py "            Type of Dish: "
                       ++ (if bool_decide (meal_type ≠ py "Any") then meal_type
                           else py "Any");
                     py "            Maximum cooking time: " ++ str_of_N cooking_time
                       ++ py " minutes";
                     py ""] : list pystr) →
            contains s prompt) as Hline.
  { intros s line Hs Hin. eapply contains_trans; [exact Hs|].
    apply contains_join. apply elem_of_app. by left. }
  assert (Hopening :
    contains (py "Create a detailed " ++ region
              ++ py " Indian recipe using these ingredients: "
              ++ join (py ", ") identified_ingredients ++ py ".") prompt).
  { eapply Hline; [|right; by left].
    apply (contains_app_r _ (py "            ")), contains_refl. }
  split_and!.
  - exact Hopening.
  - intros ingredient Hin. eapply contains_trans; [|exact Hopening].
    apply contains_app_r, contains_app_r, contains_app_r, contains_app_l.
    by apply contains_join.
  - eapply Hline; [|do 3 right; by left].
    apply (contains_app_r _ (py "            ")).
    destruct (decide (region = py "Any")) as [Hr|Hr].
    + rewrite bool_decide_eq_false_2 by (by intros H). apply contains_refl.
    + rewrite bool_decide_eq_true_2 by done. apply contains_refl.
  - eapply Hline; [|do 4 right; by left].
    apply (contains_app_r _ (py "            ")), contains_refl.
  - eapply Hline; [|do 5 right; by left].
    apply (contains_app_r _ (py "            ")).
    destruct (decide (meal_type = py "Any")) as [Hm|Hm].
    + rewrite bool_decide_eq_false_2 by (by intros H). rewrite Hm. apply contains_refl.
    + rewrite bool_decide_eq_true_2 by done. apply contains_refl.
  - eapply Hline; [|do 6 right; by left].
    apply (contains_app_r _ (py "            ")), contains_refl.
Qed.

End prompt.

(** ** The generation step *)

Section generation.

Variable svc : services.
Variable inp : inputs.

Lemma split_two_lines (l1 l2 more : pystr) :
  newline ∉ l1 → newline ∉ l2 → (more = [] ∨ head more = Some newline) →
  ∃ rest, split newline (l1 ++ newline :: l2 ++ more) = l1 :: l2 :: rest.
Proof.
  intros H1 H2 [->|Hmore].
  - exists []. by rewrite app_nil_r, split_line, split_no_sep.
  - destruct more as [|c more]; [done|]. injection Hmore as ->.
    exists (split newline more). by rewrite !split_line.
Qed.

(** X6. When the text model fails, or answers with an empty text, the
    generation step ends there without raising: after the request (and the
    error message, if any) nothing is drawn, no video is searched, no Save
    button is created and the database is not touched. *)
Theorem generation_failure_stops (region meal_type : pystr)
    (identified_ingredients : list pystr) (spice_level cooking_time : N) (w : world) :
  let prompt :=
    recipe_prompt region identified_ingredients spice_level meal_type cooking_time in
  let waiting := page w ++ [st_spinner (py "Creating your Indian recipe...")] in
  let run :=
    generate_and_show svc inp region identified_ingredients spice_level meal_type
      cooking_time w in
  match model_generate_content svc waiting prompt with
  | Raise e =>
      run = (Ok tt,
             {| conn := conn w;
                page := waiting ++ [model_request prompt;
                                    st_error (py "Error generating content: " ++ exn_str e)];
                widgets := widgets w |})
  | Ok [] =>
      run = (Ok tt, {| conn := conn w; page := waiting ++ [model_request prompt];
                       widgets := widgets w |})
  | Ok (_ :: _) => True
  end.
Proof.
  simpl. unfold generate_and_show, safe_generate_content, try_except, request.
  unfold mbind, app_bind, mret, app_ret, bind, lift, emit, ret, raise. simpl.
  destruct (model_generate_content svc _ _) as [[|c text]|e]; simpl; [done|done|].
  by rewrite <-app_assoc.
Qed.

Lemma safe_generate_content_run (prompt : pystr) (w : world) :
  safe_generate_content svc prompt w =
    match model_generate_content svc (page w) prompt with
    | Ok text =>
        (Ok (Some text),
         {| conn := conn w; page := page w ++ [model_request prompt];
            widgets := widgets w |})
    | Raise e =>
        (Ok None,
         {| conn := conn w;
            page := page w ++ [model_request prompt;
                               st_error (py "Error generating content: " ++ exn_str e)];
            widgets := widgets w |})
    end.
Proof.
  unfold safe_generate_content, try_except, request.
  unfold mbind, app_bind, mret, app_ret, bind, lift, emit, ret, raise. simpl.
  destruct (model_generate_content svc (page w) prompt) as [text|e]; simpl; [done|].
  by rewrite <-app_assoc.
Qed.

Lemma bind_run {A B} (c : app A) (k : A → app B) (w : world) :
  (c ≫= k) w =
    match c w with
    | (Ok a, w') => k a w'
    | (Raise e, w') => (Raise e, w')
    end.
Proof. done. Qed.

Lemma emit_run (e : event) (w : world) :
  emit e w = (Ok tt, {| conn := conn w; page := page w ++ [e]; widgets := widgets w |}).
Proof. done. Qed.

Lemma st_button_run (label : pystr) (key : option pystr) (w : world) :
  let x := {| w_type := button; w_label := label; w_key := key |} in
  duplicate x (widgets w) = false →
  st_button inp label key w =
    (Ok (clicked inp x),
     {| conn := conn w; page := page w; widgets := widgets w ++ [x] |}).
Proof.
  intros x Hx. unfold st_button, register, mbind, app_bind, bind. fold x.
  by rewrite Hx.
Qed.

Lemma truthy_url (video_id : pystr) :
  truthy (Some (py "https://www.youtube.com/watch?v=" ++ video_id)) = true.
Proof. reflexivity. Qed.

(** X7. When the text model answers with a text of at least two lines and
    the video search answers, the generation step shows the text, searches
    a video for the title taken from line 1 and the selected region, shows
    the video section exactly when the search returned an item (with the
    URL of the first), and offers the Save button.  As long as Save is not
    clicked, nothing is written to the database. *)
Theorem generated_recipe_is_shown (region meal_type : pystr)
    (identified_ingredients : list pystr) (spice_level cooking_time : N) (w : world)
    (l1 l2 more : pystr) (items : list search_item) :
  let text := l1 ++ newline :: l2 ++ more in
  let save_button := {| w_type := button; w_label := py "Save Recipe"; w_key := None |} in
  let prompt :=
    recipe_prompt region identified_ingredients spice_level meal_type cooking_time in
  newline ∉ l1 → newline ∉ l2 → (more = [] ∨ head more = Some newline) →
  (∀ before prompt, model_generate_content svc before prompt = Ok text) →
  (∀ before request, youtube_execute svc before request = Ok items) →
  save_button ∉ widgets w → clicked inp save_button = false →
  generate_and_show svc inp region identified_ingredients spice_level meal_type
    cooking_time w =
  (Ok tt,
   {| conn := conn w;
      page :=
        page w
        ++ [st_spinner (py "Creating your Indian recipe...");
            model_request prompt;
            st_markdown text;
            st_spinner (py "Finding a Telugu video tutorial...");
            youtube_request (search_list (strip (remove_char hash l1)) region)]
        ++ match items with
           | item :: _ =>
               [st_subheader video_heading;
                st_video (py "https://www.youtube.com/watch?v=" ++ videoId item)]
           | [] => []
           end;
      widgets := widgets w ++ [save_button] |}).
Proof.
  intros text save_button prompt H1 H2 Hmore Hmodel Hvideo Hfresh Hsave.
  destruct (split_two_lines l1 l2 more H1 H2 Hmore) as (rest & Hsplit).
  assert (∃ c t, text = c :: t) as (c & t & Htext).
  { unfold text. destruct l1; simpl; eauto. }
  unfold generate_and_show. fold prompt.
  rewrite bind_run, emit_run, bind_run, safe_generate_content_run, Hmodel.
  rewrite Htext, bind_run, emit_run, bind_run, <-Htext.
  rewrite (extract_recipe_names_split text l1 l2 rest) by done.
  cbn [fst snd]. rewrite bind_run, emit_run, bind_run.
  rewrite search_telugu_recipe_video_run, Hvideo. cbn [conn page widgets].
  assert (duplicate save_button (widgets w) = false) as Hdup.
  { unfold duplicate. simpl. by rewrite bool_decide_eq_false_2. }
  destruct items as [|item items'].
  - cbn [truthy]. rewrite bind_run. unfold skip at 1, ret.
    rewrite bind_run, st_button_run by done. fold save_button. rewrite Hsave.
    unfold skip, ret. cbn [conn page widgets]. by rewrite <-!app_assoc.
  - rewrite truthy_url. cbn [default].
    rewrite !bind_run, !emit_run. cbn [conn page widgets]. unfold id.
    rewrite bind_run, st_button_run by done. fold save_button. rewrite Hsave.
    unfold skip, ret. cbn [conn page widgets]. by rewrite <-!app_assoc.
Qed.

End generation.

Lemma generated_recipe_is_shown_witness :
  (generate_and_show online photo_and_generate (py "South Indian")
     [py "basmati rice (1 cup)"; py "turmeric (1 tsp)"] 3 (py "Rice Dish") 30
     (start None)).1 = Ok tt.
Proof.
  rewrite (generated_recipe_is_shown online photo_and_generate (py "South Indian")
             (py "Rice Dish") [py "basmati rice (1 cup)"; py "turmeric (1 tsp)"] 3 30
             (start None) (py "# Turmeric Rice") (py "# Pasupu Annam")
             (newline :: newline :: py "## Ingredients")
             [{| videoId := py "dQw4w9WgXcQ" |}]).
  - reflexivity.
  - apply (bool_decide_unpack _). vm_compute. exact I.
  - apply (bool_decide_unpack _). vm_compute. exact I.
  - right. reflexivity.
  - intros before prompt. reflexivity.
  - intros before request. reflexivity.
  - apply not_elem_of_nil.
  - reflexivity.
Defined.

(** ** The "Generate Recipe" page before the click *)

Section generate_page.

Variable svc : services.
Variable inp : inputs.

Lemma for_each_emit {A} (f : A → event) (l : list A) (w : world) :
  for_each l (λ x, emit (f x)) w =
    (Ok tt, {| conn := conn w; page := page w ++ (f <$> l); widgets := widgets w |}).
Proof.
  revert w. induction l as [|x l IH]; intros w; simpl.
  - unfold ret. rewrite app_nil_r. by destruct w.
  - unfold bind. rewrite emit_run, IH. simpl. by rewrite <-app_assoc.
Qed.

Lemma register_run (x : widget) (w : world) :
  duplicate x (widgets w) = false →
  register x w =
    (Ok tt, {| conn := conn w; page := page w; widgets := widgets w ++ [x] |}).
Proof. intros Hx. unfold register. by rewrite Hx. Qed.

Lemma ret_run {A} (a : A) (w : world) : (mret a : app A) w = (Ok a, w).
Proof. done. Qed.

Lemma skip_run (w : world) : skip w = (Ok tt, w).
Proof. done. Qed.

Lemma identify_ingredients_from_image_run (file : bytes) (text : pystr) (w : world) :
  image_open svc file = Ok tt →
  vision_generate_content svc (page w) vision_prompt file = Ok text →
  identify_ingredients_from_image svc file w =
    (Ok (strip <$> split comma (strip text)),
     {| conn := conn w;
        page := page w ++ [vision_request vision_prompt (py "image/jpeg") file];
        widgets := widgets w |}).
Proof.
  intros Hopen Hvision.
  unfold identify_ingredients_from_image, try_except, request.
  unfold mbind, app_bind, mret, app_ret, bind, lift, emit, ret, raise.
  rewrite Hopen. simpl. by rewrite Hvision.
Qed.

(** Run the next statements of a method on the current state. *)
Ltac run :=
  repeat (first [ rewrite bind_run | rewrite emit_run | rewrite ret_run
                | rewrite skip_run | rewrite register_run by reflexivity ];
          cbn [conn page widgets fst snd]).

(** X8. A photo is uploaded that PIL opens and for which the vision model
    answers, and Generate is not clicked: the page shows the photo and the
    identified ingredients, one bullet each, creates its six widgets and
    ends normally.  Nothing is asked of the text model or of YouTube and
    the database is not touched. *)
Theorem generate_page_lists_ingredients (file : bytes) (text : pystr) (w : world) :
  uploaded_file inp = Some file →
  image_open svc file = Ok tt →
  (∀ before, vision_generate_content svc before vision_prompt file = Ok text) →
  widgets w = [] →
  clicked inp generate_button = false →
  generate_recipe svc inp w =
    (Ok tt,
     {| conn := conn w;
        page :=
          page w
          ++ [st_title (127858 :: py " Indian Recipe Generator");
              st_subheader (py "Upload a photo of your ingredients");
              st_image file (py "Uploaded Ingredients");
              st_spinner (py "Analyzing your ingredients...");
              vision_request vision_prompt (py "image/jpeg") file;
              st_success (py "Identified ingredients:")]
          ++ ((λ ingredient, st_write (8226 :: py " " ++ ingredient))
                <$> (strip <$> split comma text));
        widgets := generate_page_widgets |}).
Proof.
  intros Hfile Hopen Hvision Hw Hclick. destruct w as [c p ws]. simpl in Hw. subst ws.
  rewrite <-(strip_split_strip comma text) by done.
  destruct (split_cons comma (strip text)) as (x & xs & Hsplit).
  unfold generate_recipe, st_file_uploader, st_selectbox, st_slider, st_button.
  run. rewrite Hfile. run.
  rewrite Hopen. cbn [lift]. run.
  rewrite (identify_ingredients_from_image_run file text) by done. run.
  rewrite Hsplit, fmap_cons. cbn [truthy_list]. run.
  rewrite for_each_emit. run.
  fold generate_button. rewrite Hclick. cbn [andb negb]. unfold skip, ret.
  by rewrite <-!app_assoc.
Qed.

(** X9. The uploaded file is opened a first time by [generate_recipe]
    itself, before the Vision Identifier and outside its [try]: when PIL
    cannot open the file, the exception leaves [generate_recipe] right after
    the upload widget; nothing is identified and no error message of the
    identifier is shown. *)
Theorem generate_page_unreadable_image (file : bytes) (e : exn) (w : world) :
  uploaded_file inp = Some file →
  image_open svc file = Raise e →
  widgets w = [] →
  generate_recipe svc inp w =
    (Raise (Exc e),
     {| conn := conn w;
        page := page w ++ [st_title (127858 :: py " Indian Recipe Generator");
                           st_subheader (py "Upload a photo of your ingredients")];
        widgets := [{| w_type := file_uploader; w_label := py "Choose an image...";
                       w_key := None |}] |}).
Proof.
  intros Hfile Hopen Hw. destruct w as [c p ws]. simpl in Hw. subst ws.
  unfold generate_recipe, st_file_uploader.
  run. rewrite Hfile. run. rewrite Hopen. cbn [lift]. unfold raise.
  by rewrite <-!app_assoc.
Qed.

End generate_page.

Lemma generate_page_lists_ingredients_witness :
  (generate_recipe online photo_only (start None)).1 = Ok tt.
Proof.
  rewrite (generate_page_lists_ingredients online photo_only
             [Byte.xff; Byte.xd8; Byte.xff]
             (py "basmati rice (1 cup), turmeric (1 tsp)") (start None));
    reflexivity.
Defined.

Lemma generate_page_unreadable_image_witness :
  (generate_recipe unreadable photo_only (start None)).1 =
  Raise (Exc {| exn_type := UnidentifiedImageError;
                exn_str := py "cannot identify image file" |}).
Proof.
  rewrite (generate_page_unreadable_image unreadable photo_only
             [Byte.xff; Byte.xd8; Byte.xff]
             {| exn_type := UnidentifiedImageError;
                exn_str := py "cannot identify image file" |} (start None));
    reflexivity.
Defined.

(** ** Saving and viewing *)

(** Run the next statements of a method on the current state. *)
Ltac run_steps :=
  repeat (first [ rewrite bind_run | rewrite emit_run | rewrite ret_run
                | rewrite skip_run | rewrite register_run by reflexivity ];
          cbn [conn page widgets fst snd]).

Section saving.

Variable svc : services.

(** X10. The Save action never raises.  On a table with room it adds
    exactly one row, under a new id, and keeps the others: the row has the
    two titles, the region, the ingredients joined with [", "], the whole
    generated text, the video link as found ([None] when none was found)
    and the clock reading as [created_date]; success is shown.  On a table
    without room nothing is written and the error is shown. *)
Theorem save_recipe_adds_one_row (name_en name_te reg : pystr)
    (identified : list pystr) (result : pystr) (video : option pystr) (w : world) :
  let r := {| recipe_name := name_en; recipe_name_telugu := Some name_te;
              region := reg; ingredients := join (py ", ") identified;
              instructions := result; video_link := video;
              created_date := strftime (datetime_now svc (page w)) |} in
  let run := save_recipe svc name_en name_te reg identified result video w in
  run.1 = Ok tt
  ∧ widgets run.2 = widgets w
  ∧ (has_room (conn w) →
     ∃ id,
       get id (conn w) = None
       ∧ get id (conn run.2) = Some r
       ∧ Store.count (conn run.2) = S (Store.count (conn w))
       ∧ keeps_rows (conn w) (conn run.2)
       ∧ page run.2 =
           page w ++ [sql_commit; st_success (py "Recipe saved successfully!");
                      st_balloons])
  ∧ (¬ has_room (conn w) →
     conn run.2 = conn w
     ∧ page run.2 =
         page w ++ [st_error (py "Error saving recipe: database or disk is full")]).
Proof.
  intros r run. unfold run. rewrite save_recipe_run. fold r.
  destruct (Store.insert r (conn w)) as [[id t']|] eqn:Hins; cbn [fst snd conn page widgets].
  - split_and!; [done|done| |].
    + intros _. exists id.
      pose proof (insert_keeps_rows _ _ _ _ Hins) as Hkeep.
      apply insert_Some in Hins as (_ & _ & Hnew & ->).
      split_and!; [done|apply lookup_insert_eq| |done|done].
      unfold Store.count. simpl. by rewrite map_size_insert_None.
    + intros Hfull. destruct Hfull. apply (insert_has_room r). by rewrite Hins.
  - split_and!; [done|done| |done].
    intros [x Hx]%(insert_has_room r). congruence.
Qed.

(** X11. The detail view of a saved row never raises and writes nothing:
    it shows the heading "name / localized name", the instructions, and the
    video section when the stored link is a non-empty string.  A link stored
    as the empty string is shown like a missing one: no video section. *)
Theorem view_recipe_details_shows_row (id : Z) (r : recipe) (w : world) :
  get id (conn w) = Some r →
  view_recipe_details id w =
    (Ok tt, {| conn := conn w; page := page w ++ details_events r; widgets := widgets w |})
  ∧ (video_link r = None ∨ video_link r = Some [] →
     details_events r =
       [st_subheader (recipe_name r ++ py " / " ++ format_opt (recipe_name_telugu r));
        st_markdown (instructions r)])
  ∧ (∀ c url, video_link r = Some (c :: url) →
     details_events r =
       [st_subheader (recipe_name r ++ py " / " ++ format_opt (recipe_name_telugu r));
        st_markdown (instructions r);
        st_subheader video_heading;
        st_video (c :: url)]).
Proof.
  intros Hr. split_and!.
  - unfold view_recipe_details, query, select_details, details_events.
    rewrite bind_run. cbn [fst snd]. rewrite Hr. cbn [fmap option_fmap option_map].
    destruct (truthy (video_link r)); run_steps; unfold skip, ret;
      by rewrite <-!app_assoc.
  - unfold details_events. by intros [->| ->].
  - unfold details_events. by intros c url ->.
Qed.

End saving.

Lemma view_recipe_details_shows_row_witness :
  view_recipe_details 7 with_empty_link =
  (Ok tt, {| conn := conn with_empty_link;
             page := [st_subheader (py "Turmeric Rice / None");
                      st_markdown (py "# Turmeric Rice")];
             widgets := [] |}).
Proof.
  destruct (view_recipe_details_shows_row 7 empty_link with_empty_link) as (-> & _).
  - reflexivity.
  - reflexivity.
Defined.

(** ** The "Saved Recipes" page *)

Section decimal_keys.

Lemma py_inj (a b : string) : py a = py b → a = b.
Proof.
  unfold py. intros H.
  rewrite <-(string_of_list_ascii_of_string a), <-(string_of_list_ascii_of_string b).
  f_equal. revert H. generalize (list_ascii_of_string a) (list_ascii_of_string b).
  induction l as [|x l IH]; intros [|y l']; simpl; try done.
  intros [= Hxy Hl]. f_equal; [|by apply IH].
  by rewrite <-(ascii_N_embedding x), <-(ascii_N_embedding y), Hxy.
Qed.

(** [str] of two different integers gives two different strings. *)
Lemma str_of_Z_inj (a b : Z) : str_of_Z a = str_of_Z b → a = b.
Proof.
  unfold str_of_Z. intros H%py_inj. apply DecimalZ.to_int_inj.
  assert (∀ z, NilZero.int_of_string (NilZero.string_of_int (Z.to_int z))
               = Some (Z.to_int z)) as Hisi.
  { intros z. apply NilZero.isi; destruct z as [|p|p]; simpl; try done;
      intros [= Hp]; by apply DecimalPos.Unsigned.to_uint_nonnil in Hp. }
  pose proof (Hisi a) as Ha. rewrite H, Hisi in Ha. by injection Ha.
Qed.

Lemma view_key_inj (i j : Z) : w_key (view_button i) = w_key (view_button j) → i = j.
Proof. simpl. intros [= H]. by apply str_of_Z_inj. Qed.

Lemma delete_key_inj (i j : Z) : w_key (delete_button i) = w_key (delete_button j) → i = j.
Proof. simpl. intros [= H]. by apply str_of_Z_inj. Qed.

Lemma view_key_not_delete_key (i j : Z) : w_key (view_button i) ≠ w_key (delete_button j).
Proof. simpl. intros [= H]. Qed.

Lemma fresh_key_not_duplicate (x : widget) (ws : list widget) :
  is_Some (w_key x) → w_key x ∉ w_key <$> ws → duplicate x ws = false.
Proof.
  intros [k Hk] Hfresh. unfold duplicate. rewrite Hk.
  rewrite !bool_decide_eq_false_2; [done|by rewrite <-Hk|].
  intros Hx. apply Hfresh. apply list_elem_of_fmap. by exists x.
Qed.

End decimal_keys.

Section saved_page.

Variable inp : inputs.

(** The body of the [for recipe in recipes:] loop. *)
Local Abbreviation row_body := (λ recipe : summary,
  emit (st_write (py "**" ++ s_recipe_name recipe ++ py "**"));;
  emit (st_write (py "*" ++ format_opt (s_recipe_name_telugu recipe) ++ py "*"));;
  emit (st_write (py "Region: " ++ s_region recipe));;
  emit (st_write (py "Ingredients: " ++ s_ingredients recipe));;
  view ← st_button inp (py "View") (Some (py "view_" ++ str_of_Z (s_id recipe)));
  (if view : bool then view_recipe_details (s_id recipe) else skip);;
  del ← st_button inp (py "Delete") (Some (py "del_" ++ str_of_Z (s_id recipe)));
  (if del : bool then delete_recipe (s_id recipe);; st_rerun else skip);;
  emit st_divider).

Lemma view_recipe_details_run (id : Z) (w : world) :
  view_recipe_details id w =
    (Ok tt,
     {| conn := conn w;
        page := page w ++ match get id (conn w) with
                          | Some row => details_events row
                          | None => [st_error (py "Recipe not found!")]
                          end;
        widgets := widgets w |}).
Proof.
  destruct (get id (conn w)) as [row|] eqn:Hid;
    [|by apply view_recipe_details_absent].
  unfold view_recipe_details, query, select_details, details_events.
  rewrite bind_run. cbn [fst snd]. rewrite Hid. cbn [fmap option_fmap option_map].
  destruct (truthy (video_link row)); run_steps; by rewrite <-!app_assoc.
Qed.

Lemma row_body_run (r : summary) (w : world) :
  delete_clicked inp (s_id r) = false →
  w_key (view_button (s_id r)) ∉ w_key <$> widgets w →
  w_key (delete_button (s_id r)) ∉ w_key <$> widgets w →
  row_body r w =
    (Ok tt, {| conn := conn w; page := page w ++ row_events_viewed inp (conn w) r;
               widgets := widgets w ++ row_widgets r |}).
Proof.
  intros Hclick Hview Hdel. cbv beta. run_steps.
  rewrite (st_button_run inp) by (by apply fresh_key_not_duplicate).
  assert (∀ p ws,
    duplicate (delete_button (s_id r))
      (widgets {| conn := conn w; page := p; widgets := widgets w ++ ws |}) = false
    ∨ ws ≠ [view_button (s_id r)]) as Hfresh.
  { intros p ws. destruct (decide (ws = [view_button (s_id r)])) as [->|]; [left|by right].
    apply fresh_key_not_duplicate; [done|]. cbn [widgets].
    rewrite fmap_app. intros [?|Hx]%elem_of_app; [done|].
    apply list_elem_of_singleton in Hx.
    by apply (view_key_not_delete_key (s_id r) (s_id r)). }
  unfold row_events_viewed. fold (view_button (s_id r)).
  destruct (clicked inp (view_button (s_id r))).
  - rewrite bind_run, view_recipe_details_run. run_steps.
    rewrite (st_button_run inp); cycle 1.
    { by destruct (Hfresh
        (((((page w ++ [st_write (py "**" ++ s_recipe_name r ++ py "**")])
            ++ [st_write (py "*" ++ format_opt (s_recipe_name_telugu r) ++ py "*")])
           ++ [st_write (py "Region: " ++ s_region r)])
          ++ [st_write (py "Ingredients: " ++ s_ingredients r)])
         ++ match get (s_id r) (conn w) with
            | Some row => details_events row
            | None => [st_error (py "Recipe not found!")]
            end) [view_button (s_id r)]). }
    fold (delete_button (s_id r)). unfold delete_clicked in Hclick.
    fold (delete_button (s_id r)) in Hclick. rewrite Hclick. run_steps.
    unfold row_widgets. by rewrite <-!app_assoc.
  - run_steps. rewrite (st_button_run inp); cycle 1.
    { by destruct (Hfresh
        ((((page w ++ [st_write (py "**" ++ s_recipe_name r ++ py "**")])
           ++ [st_write (py "*" ++ format_opt (s_recipe_name_telugu r) ++ py "*")])
          ++ [st_write (py "Region: " ++ s_region r)])
         ++ [st_write (py "Ingredients: " ++ s_ingredients r)])
        [view_button (s_id r)]). }
    fold (delete_button (s_id r)). unfold delete_clicked in Hclick.
    fold (delete_button (s_id r)) in Hclick. rewrite Hclick. run_steps.
    unfold row_widgets. by rewrite <-!app_assoc.
Qed.

Lemma rows_loop_run (l : list summary) (w : world) :
  (∀ id, delete_clicked inp id = false) →
  NoDup (s_id <$> l) →
  (∀ r, r ∈ l →
     (w_key (view_button (s_id r)) ∉ w_key <$> widgets w)
     ∧ (w_key (delete_button (s_id r)) ∉ w_key <$> widgets w)) →
  for_each l row_body w =
    (Ok tt, {| conn := conn w; page := page w ++ (l ≫= row_events_viewed inp (conn w));
               widgets := widgets w ++ (l ≫= row_widgets) |}).
Proof.
  intros Hclick. revert w. induction l as [|r l IH]; intros w Hnd Hfresh.
  - simpl. unfold ret. rewrite !app_nil_r. by destruct w.
  - apply NoDup_cons in Hnd as [Hr Hnd].
    cbn [for_each]. unfold bind.
    destruct (Hfresh r) as [Hv Hd]; [by left|].
    rewrite row_body_run by done.
    rewrite IH; [|done|].
    + cbn [conn page widgets]. by rewrite !bind_cons, <-!app_assoc.
    + intros r' Hr'. cbn [widgets].
      destruct (Hfresh r') as [Hv' Hd']; [by right|].
      assert (s_id r' ≠ s_id r) as Hne.
      { intros Heq. apply Hr. rewrite <-Heq. apply list_elem_of_fmap. by exists r'. }
      rewrite fmap_app. unfold row_widgets. rewrite !fmap_cons, fmap_nil.
      split; intros [?|Hx]%elem_of_app; try done;
        apply elem_of_cons in Hx as [Hx|Hx%list_elem_of_singleton].
      * by apply view_key_inj in Hx.
      * by apply view_key_not_delete_key in Hx.
      * symmetry in Hx. by apply view_key_not_delete_key in Hx.
      * by apply delete_key_inj in Hx.
Qed.

Lemma select_all_ids_NoDup (t : saved_recipes) : NoDup (s_id <$> select_all t).
Proof.
  unfold select_all. rewrite <-list_fmap_compose.
  rewrite (fmap_Permutation _ _ _ (merge_sort_Permutation _ _)).
  apply (NoDup_fst_map_to_list (rows t)).
Qed.

(** X12. On a fresh run with no Delete button clicked, the "Saved Recipes"
    page ends normally whatever the table holds: the buttons of different
    rows never collide, since their keys carry the row id.  With no row it
    shows the "No saved recipes yet" note; otherwise it draws, for every
    row of the list query and in its order, the name, the localized name,
    the region and the ingredients, then the detail view of the row if its
    View button was clicked, then a divider, and it creates the View and
    Delete buttons of the row.  The database is not touched. *)
Theorem view_saved_recipes_lists_rows (w : world) :
  widgets w = [] →
  (∀ id, delete_clicked inp id = false) →
  view_saved_recipes inp w =
    (Ok tt,
     {| conn := conn w;
        page :=
          page w
          ++ st_title (128218 :: py " My Saved Recipes")
             :: match select_all (conn w) with
                | [] => [st_info (py
                    "No saved recipes yet. Upload ingredients and generate recipes to get started!")]
                | recipes => recipes ≫= row_events_viewed inp (conn w)
                end;
        widgets := select_all (conn w) ≫= row_widgets |}).
Proof.
  intros Hw Hclick. unfold view_saved_recipes, query. run_steps.
  destruct (select_all (conn w)) as [|r l] eqn:Hsel.
  - cbn [truthy_list]. run_steps. rewrite Hw. by rewrite <-!app_assoc.
  - cbn [truthy_list]. rewrite rows_loop_run.
    + cbn [conn page widgets]. rewrite Hw. by rewrite <-!app_assoc.
    + done.
    + rewrite <-Hsel. apply select_all_ids_NoDup.
    + intros r' _. cbn [widgets]. rewrite Hw. split; apply not_elem_of_nil.
Qed.

End saved_page.

Lemma view_saved_recipes_lists_rows_witness :
  (view_saved_recipes photo_only
     {| conn := three_rows; page := []; widgets := [] |}).1 = Ok tt.
Proof.
  rewrite (view_saved_recipes_lists_rows photo_only
             {| conn := three_rows; page := []; widgets := [] |}); reflexivity.
Defined.

Section one_delete.

Variable inp : inputs.
Variable t : saved_recipes.

Lemma once_read {A} (c : app A) :
  (∀ w, conn (c w).2 = conn w) → deletes_at_most_once inp t c.
Proof.
  intros H w Hw. specialize (H w).
  destruct (c w) as [[a|e] w']; simpl in *; [congruence|left; congruence].
Qed.

Lemma once_bind {A B} (c : app A) (k : A → app B) :
  deletes_at_most_once inp t c → (∀ a, deletes_at_most_once inp t (k a)) →
  deletes_at_most_once inp t (c ≫= k).
Proof.
  intros Hc Hk w Hw. rewrite bind_run. specialize (Hc w Hw).
  destruct (c w) as [[a|e] w']; [by apply Hk|done].
Qed.

Lemma once_query {A B} (f : saved_recipes → A) (k : A → app B) :
  deletes_at_most_once inp t (k (f t)) → deletes_at_most_once inp t (query f ≫= k).
Proof.
  intros Hk w Hw. rewrite bind_run. unfold query. rewrite Hw. by apply Hk.
Qed.

Lemma once_button (label : pystr) (key : option pystr) {B} (k : bool → app B) :
  deletes_at_most_once inp t
    (k (clicked inp {| w_type := button; w_label := label; w_key := key |})) →
  deletes_at_most_once inp t (st_button inp label key ≫= k).
Proof.
  intros Hk w Hw. unfold st_button, register, mbind, app_bind, bind.
  destruct (duplicate _ (widgets w)); simpl; [by left|].
  by apply (Hk (Build_world _ _ _)).
Qed.

Lemma once_for_each {A} (l : list A) (body : A → app unit) :
  (∀ x, x ∈ l → deletes_at_most_once inp t (body x)) →
  deletes_at_most_once inp t (for_each l body).
Proof.
  induction l as [|x l IH]; intros Hb; simpl.
  - by apply once_read.
  - apply (once_bind (body x) (λ _, for_each l body)).
    + apply Hb. by left.
    + intros _. apply IH. intros y Hy. apply Hb. by right.
Qed.

Lemma once_delete_rerun (id : Z) :
  delete_clicked inp id = true → is_Some (get id t) →
  deletes_at_most_once inp t (delete_recipe id ≫= λ _, st_rerun).
Proof.
  intros Hc Hid w Hw. rewrite bind_run, delete_recipe_run. unfold st_rerun, raise.
  right. split; [done|]. exists id. simpl. by rewrite Hw.
Qed.

Lemma select_all_elem_inv (x : summary) :
  x ∈ select_all t → is_Some (get (s_id x) t).
Proof.
  rewrite select_all_Permutation.
  intros ([id r] & -> & Hr%elem_of_map_to_list)%list_elem_of_fmap. by exists r.
Qed.

Lemma view_saved_recipes_once : deletes_at_most_once inp t (view_saved_recipes inp).
Proof.
  unfold view_saved_recipes.
  apply once_bind; [by apply once_read|intros _].
  apply once_query. destruct (truthy_list (select_all t)); [|by apply once_read].
  apply once_for_each. intros x Hx%select_all_elem_inv.
  do 4 (apply once_bind; [by apply once_read|intros _]).
  apply once_button. apply once_bind.
  { destruct (clicked inp _); apply once_read; [|done].
    intros w. apply view_recipe_details_conn. }
  intros _. apply once_button. apply once_bind; [|intros _; by apply once_read].
  destruct (clicked inp _) eqn:Hdel; [|by apply once_read].
  by apply once_delete_rerun.
Qed.

End one_delete.

(** X13. A run of the "Saved Recipes" page deletes at most one row.  If the
    run ends normally the table is as before.  A row is deleted only when
    its own Delete button was clicked and the table held it, and then
    nothing else of the table changes and the run ends at once with the
    rerun request, so one row fewer is left. *)
Theorem view_saved_recipes_deletes_at_most_one (inp : inputs) (w : world) :
  let run := view_saved_recipes inp w in
  match run.1 with
  | Ok _ => conn run.2 = conn w
  | Raise e =>
      conn run.2 = conn w
      ∨ (e = RerunException
         ∧ ∃ id,
             delete_clicked inp id = true
             ∧ is_Some (get id (conn w))
             ∧ conn run.2 = Store.delete id (conn w)
             ∧ Store.count (conn run.2) = pred (Store.count (conn w)))
  end.
Proof.
  intros run. pose proof (view_saved_recipes_once inp (conn w) w eq_refl) as H.
  unfold run. destruct (view_saved_recipes inp w) as [[a|e] w']; simpl; [done|].
  destruct H as [H|(-> & id & Hc & Hid & ->)]; [by left|right].
  split; [done|]. exists id. split_and!; try done.
  unfold Store.count, Store.delete. simpl. by rewrite map_size_delete_Some.
Qed.

Example view_saved_recipes_delete_second :
  let run := view_saved_recipes delete_second
               {| conn := three_rows; page := []; widgets := [] |} in
  run.1 = Raise RerunException
  ∧ s_id <$> select_all (conn run.2) = [3; 1]%Z.
Proof. vm_compute. split; reflexivity. Qed.

(** ** The script as a whole *)

Section whole_script.

Variable svc : services.
Variable inp : inputs.

#[local] Instance keeps_unclicked_pre : PreOrder (keeps_unclicked inp).
Proof. split; [by intros t id r|]. intros t1 t2 t3 H12 H23 id r Hr Hc. eauto. Qed.

Lemma moves_by_weaken {A} (R R' : relation saved_recipes) (c : app A) :
  (∀ t t', R t t' → R' t t') → moves_by R c → moves_by R' c.
Proof. intros HR Hc w. apply HR, Hc. Qed.

Lemma moves_try_bare (R : relation saved_recipes) `{!PreOrder R} {A}
    (body handler : app A) :
  moves_by R body → moves_by R handler → moves_by R (try_bare body handler).
Proof.
  intros Hb Hh w. unfold try_bare. specialize (Hb w).
  destruct (body w) as [[a|e] w']; simpl in *; [done|].
  etrans; [done|]. apply Hh.
Qed.

Lemma home_reads : moves_by eq home.
Proof.
  unfold home. repeat first [ apply (moves_try_bare eq) | frame_step ].
Qed.

Lemma pages_keep_unclicked : moves_by (keeps_unclicked inp) (pages svc inp).
Proof.
  unfold pages, st_selectbox.
  repeat first
    [ eapply moves_by_weaken; [|apply (generate_recipe_keeps_rows svc inp)];
      intros t t' H id r Hr _; by apply H
    | apply view_saved_recipes_keeps_unclicked
    | eapply moves_by_weaken; [|apply home_reads]; by intros t t' <-
    | frame_step ].
Qed.

(** X14. The Home page is chosen whenever the sidebar selection is neither
    "Generate Recipe" nor "Saved Recipes".  It never raises: it draws the
    sidebar title, its own title and text, and the banner "You have saved n
    recipes so far!" exactly when the table holds at least one row, with n
    the number of rows.  A database file without the table gets an empty
    table; an existing table is left as it is. *)
Theorem home_page_shows_count (db : option saved_recipes) :
  selected inp (py "Navigate") ≠ py "Generate Recipe" →
  selected inp (py "Navigate") ≠ py "Saved Recipes" →
  main svc inp db =
    (Ok tt,
     {| conn := create_recipes_table db;
        page :=
          [st_title (127858 :: py " Indian Recipe Generator");
           st_title (py "Welcome to the Indian Recipe Generator! " ++ [127858]);
           st_markdown home_text]
          ++ match Store.count (create_recipes_table db) with
             | O => []
             | S _ as n =>
                 [st_success (py "You have saved " ++ str_of_N (N.of_nat n)
                              ++ py " recipes so far!")]
             end;
        widgets := [{| w_type := selectbox; w_label := py "Navigate"; w_key := None |}] |}).
Proof.
  intros Hgen Hsaved. unfold main, pages, start, st_selectbox. run_steps.
  rewrite !bool_decide_eq_false_2 by done.
  unfold home, try_bare, query. run_steps.
  destruct (Store.count (create_recipes_table db)) as [|n]; cbn [Nat.ltb Nat.leb];
    run_steps; done.
Qed.

(** X15. The script checks the two keys before anything else: when the
    Gemini key, or else the YouTube key, is missing or empty, it stops with
    the matching message, [main] does not run and the database file is not
    touched (a missing table is not even created).  And whatever the keys,
    the page and the clicks, a row that was in the table before the run is
    still there with the same fields after it, unless its own Delete button
    was clicked. *)
Theorem script_fails_fast_and_keeps_rows (GEMINI_API_KEY YOUTUBE_API_KEY : option pystr)
    (db : option saved_recipes) :
  let run := script svc inp GEMINI_API_KEY YOUTUBE_API_KEY db in
  (truthy GEMINI_API_KEY = false →
   run = (Stopped,
          [st_error (py "Gemini API key not found. Please add it to your .env file.")],
          db))
  ∧ (truthy GEMINI_API_KEY = true → truthy YOUTUBE_API_KEY = false →
     run = (Stopped,
            [st_error (py "YouTube API key not found. Please add it to your .env file.")],
            db))
  ∧ (truthy GEMINI_API_KEY = true → truthy YOUTUBE_API_KEY = true →
     ∃ r t', run.1.1 = Finished r ∧ run.2 = Some t')
  ∧ (∀ t id r,
       db = Some t → get id t = Some r → delete_clicked inp id = false →
       ∃ t', run.2 = Some t' ∧ get id t' = Some r).
Proof.
  intros run. unfold run, script. split_and!.
  - by intros ->.
  - by intros -> ->.
  - intros -> ->. simpl. eauto.
  - intros t id r -> Hr Hc.
    destruct (truthy GEMINI_API_KEY); simpl; [|eauto].
    destruct (truthy YOUTUBE_API_KEY); simpl; [|eauto].
    eexists. split; [done|]. unfold main.
    by apply (pages_keep_unclicked (start (Some t))).
Qed.

End whole_script.

Lemma home_page_shows_count_witness :
  (main online at_home (Some three_rows)).1 = Ok tt
  ∧ last (page (main online at_home (Some three_rows)).2) =
      Some (st_success (py "You have saved 3 recipes so far!")).
Proof.
  rewrite (home_page_shows_count online at_home (Some three_rows)).
  - split; vm_compute; reflexivity.
  - vm_compute. congruence.
  - vm_compute. congruence.
Defined.

(** ** More on the store *)

(** The rows of a table written out with its inserts. *)
Ltac rows_of_table H :=
  first [ apply lookup_insert_Some in H as [[<- <-]|[? H]]; [|rows_of_table H]
        | apply lookup_singleton_Some in H as [<- <-]
        | by rewrite lookup_empty in H ].

Section store_more.

Implicit Types (t : saved_recipes) (r : recipe).

(** X16. Deleting the row that was just inserted gives back exactly the
    rows there were before, but the table remembers the id
    (AUTOINCREMENT): every later INSERT gets a larger one. *)
Theorem insert_then_delete_restores_rows r t :
  has_room t →
  ∃ id t',
    Store.insert r t = Some (id, t')
    ∧ rows (Store.delete id t') = rows t
    ∧ sqlite_sequence (Store.delete id t') = id
    ∧ (∀ r2 id2 t2,
         Store.insert r2 (Store.delete id t') = Some (id2, t2) → (id < id2)%Z).
Proof.
  intros [[id t'] Hins]%(insert_has_room r). exists id, t'.
  split; [done|]. apply insert_Some in Hins as (_ & _ & Hnew & ->).
  unfold Store.delete. simpl. split_and!; [by apply delete_insert_id|done|].
  intros r2 id2 t2 (Hseq & _)%insert_Some. done.
Qed.

Lemma insert_then_delete_restores_rows_witness :
  ∃ id t',
    Store.insert (at_time 16) three_rows = Some (id, t')
    ∧ rows (Store.delete id t') = rows three_rows.
Proof.
  destruct (insert_then_delete_restores_rows (at_time 16) three_rows)
    as (id & t' & Hins & Hrows & _).
  - split; [done|]. unfold three_rows. simpl. intros k [x Hx].
    rows_of_table Hx; unfold MAX_ROWID; lia.
  - by exists id, t'.
Defined.

(** X17. Whatever the dates, equal ones included, the list query returns
    every row of the table exactly once (as many as the Home page counts),
    and no result has a smaller [created_date] than a result after it. *)
Theorem select_all_complete_and_sorted t :
  NoDup (s_id <$> select_all t)
  ∧ (∀ id, id ∈ s_id <$> select_all t ↔ is_Some (get id t))
  ∧ length (select_all t) = Store.count t
  ∧ StronglySorted (λ a b, PyStr.le (s_created_date b) (s_created_date a)) (select_all t).
Proof.
  split_and!.
  - apply select_all_ids_NoDup.
  - intros id. rewrite select_all_Permutation, <-list_fmap_compose. split.
    + intros ([k r] & -> & Hr%elem_of_map_to_list)%list_elem_of_fmap. by exists r.
    + intros [r Hr]. apply list_elem_of_fmap. exists (id, r). split; [done|].
      by apply elem_of_map_to_list.
  - rewrite select_all_Permutation, length_fmap. apply length_map_to_list.
  - unfold select_all. apply (StronglySorted_fmap _ newer_first); [done|].
    apply Sorted_StronglySorted; [apply _|]. apply Sorted_merge_sort. apply _.
Qed.

End store_more.
